(** * Hacktoberstats: qualification and aggregation of October pull requests

    A shallow embedding of [bot/exts/halloween/hacktoberstats.py]
    (class [HacktoberStats]) together with the properties of its
    qualification loop ([get_october_prs]), its aggregator
    ([_summarize_prs]), the short-name extraction ([_get_shortname]) and the
    T-shirt message of [build_embed].

    Conventions of the embedding:
    - a parsed JSON response is a value of [json]; a JSON object is the
      [dict] that the HTTP client builds, kept as an association list in
      insertion order (lookup takes the first binding of a key);
    - a Python exception is a value of [exn], a computation that may raise
      returns a [result];
    - the network and the logger are effects: a computation of type [M A]
      returns the trace of its requests, log records and sent messages next
      to its result, and the trace written before an exception is kept;
    - a character of a [string] is a code point below 256; the classes
      [\w] and [\d] of [re] are those of a [str] pattern on these code
      points ([\d] has the ten ASCII digits only there);
    - JSON numbers are integers. *)

From Stdlib Require Import ZArith List String Ascii Bool Lia.
From Stdlib Require Import DecimalString Sorted Permutation.
Import ListNotations.

Local Open Scope string_scope.
Local Open Scope Z_scope.

Set Warnings "-register-all".

(** ** Python values and exceptions *)

Inductive json : Type :=
| JNull
| JBool (b : bool)
| JNum (n : Z)
| JStr (s : string)
| JArr (l : list json)
| JObj (kv : list (string * json)).

Inductive exn : Type :=
| KeyError (key : json)
| IndexError
| TypeError
| ValueError
| AttributeError.

Inductive result (A : Type) : Type :=
| Ok (a : A)
| Raise (e : exn).

Arguments Ok {A} a.
Arguments Raise {A} e.

Definition rbind {A B : Type} (r : result A) (f : A -> result B) : result B :=
  match r with
  | Ok a => f a
  | Raise e => Raise e
  end.

(** [dict.get]-like lookup in the association list of an object. *)
Fixpoint assoc (k : string) (kv : list (string * json)) : option json :=
  match kv with
  | [] => None
  | (k', v) :: kv' => if String.eqb k k' then Some v else assoc k kv'
  end.

Definition has_key (k : string) (kv : list (string * json)) : bool :=
  match assoc k kv with
  | Some _ => true
  | None => false
  end.

(** [k in o.keys()]: only a dict has [keys]. *)
Definition py_in_keys (k : string) (o : json) : result bool :=
  match o with
  | JObj kv => Ok (has_key k kv)
  | _ => Raise AttributeError
  end.

(** The character of [s] at position [n], as a one-character string. *)
Definition char_at (n : nat) (s : string) : option string :=
  match String.get n s with
  | Some c => Some (String c EmptyString)
  | None => None
  end.

(** Python's index normalisation for sequences: a negative index counts
    from the end. *)
Definition seq_index (i len : Z) : option nat :=
  let j := if i <? 0 then i + len else i in
  if (0 <=? j) && (j <? len) then Some (Z.to_nat j) else None.

(** [o[key]] for a key that is a string or an integer. *)
Definition py_getitem (o key : json) : result json :=
  match o, key with
  | JObj kv, JStr k =>
      match assoc k kv with
      | Some v => Ok v
      | None => Raise (KeyError key)
      end
  | JObj _, _ => Raise (KeyError key)
  | JArr l, JNum i =>
      match seq_index i (Z.of_nat (List.length l)) with
      | Some n =>
          match nth_error l n with
          | Some v => Ok v
          | None => Raise IndexError
          end
      | None => Raise IndexError
      end
  | JStr s, JNum i =>
      match seq_index i (Z.of_nat (String.length s)) with
      | Some n =>
          match char_at n s with
          | Some c => Ok (JStr c)
          | None => Raise IndexError
          end
      | None => Raise IndexError
      end
  | _, _ => Raise TypeError
  end.

(** [needle in hay] for strings: substring test. *)
Fixpoint substr_in (needle hay : string) : bool :=
  if String.prefix needle hay then true
  else match hay with
       | EmptyString => false
       | String _ hay' => substr_in needle hay'
       end.

(** [v == s] for a string [s]: only an equal string is equal. *)
Definition py_eq_str (v : json) (s : string) : bool :=
  match v with
  | JStr s' => String.eqb s' s
  | _ => false
  end.

(** [v == 0]: an integer zero, or [False]. *)
Definition py_eq_zero (v : json) : bool :=
  match v with
  | JNum n => n =? 0
  | JBool b => negb b
  | _ => false
  end.

(** [x in o] for a string [x]. *)
Definition py_contains (x : string) (o : json) : result bool :=
  match o with
  | JArr l => Ok (existsb (fun v => py_eq_str v x) l)
  | JObj kv => Ok (has_key x kv)
  | JStr s => Ok (substr_in x s)
  | _ => Raise TypeError
  end.

(** The elements a [for] loop draws from a value. *)
Definition py_iter (o : json) : result (list json) :=
  match o with
  | JArr l => Ok l
  | JObj kv => Ok (map (fun p => JStr (fst p)) kv)
  | JStr s => Ok (map (fun c => JStr (String c EmptyString)) (list_ascii_of_string s))
  | _ => Raise TypeError
  end.

(** [s + v] where [s] is a string. *)
Definition py_str_add (s : string) (v : json) : result string :=
  match v with
  | JStr t => Ok (s ++ t)
  | _ => Raise TypeError
  end.

(** [str(n)] for an integer, as an f-string renders it. *)
Definition str_of_int (n : Z) : string :=
  NilZero.string_of_int (Z.to_int n).

(** ** Effects: requests, log records, sent messages *)

Inductive level : Type := DEBUG | INFO | ERROR.

Record Embed : Type := {
  title : string;
  color : Z;
  description : string;
  thumbnail_url : string;
  author_name : string;
  author_url : string;
  author_icon_url : string;
  fields : list (string * string)
}.

(** A log record keeps its level, the message and the arguments of the
    call after the message; the module always passes the finished text and
    no argument. *)
Inductive event : Type :=
| HttpGet (url : string) (headers : list (string * string))
| Log (lvl : level) (msg : string) (args : list json)
| Send (content : string) (embed : option Embed).

Definition M (A : Type) : Type := (list event * result A)%type.

Definition ret {A : Type} (a : A) : M A := ([], Ok a).

Definition bind {A B : Type} (m : M A) (f : A -> M B) : M B :=
  match m with
  | (t, Ok a) => let (t', r) := f a in ((t ++ t')%list, r)
  | (t, Raise e) => (t, Raise e)
  end.

Definition lift {A : Type} (r : result A) : M A := ([], r).

Definition emit (e : event) : M unit := ([e], Ok tt).

Notation "x <- m ;; k" := (bind m (fun x => k))
  (at level 61, m at next level, right associativity).
Notation "m ;;; k" := (bind m (fun _ => k))
  (at level 61, right associativity).

Definition trace {A : Type} (m : M A) : list event := fst m.
Definition outcome {A : Type} (m : M A) : result A := snd m.

(** ** Regular expressions

    The part of [re] that the module and [datetime.strptime] use: character
    classes, sequence, ordered alternation, the greedy [?] and the greedy
    [+] of a class, and capturing groups.  Matching is the backtracking
    search of [re]: alternatives are tried in order, the first way to
    complete the whole match wins. *)

Inductive regex : Type :=
| Eps
| One (p : ascii -> bool)
| Seq (a b : regex)
| Alt (a b : regex)
| Opt (a : regex)
| Plus (p : ascii -> bool)
| Group (n : nat) (a : regex).

Definition groups : Type := list (nat * string).

Fixpoint group (n : nat) (g : groups) : string :=
  match g with
  | [] => ""
  | (m, s) :: g' => if Nat.eqb n m then s else group n g'
  end.

(** What was read between the input [s] and its suffix [s']. *)
Definition consumed (s s' : string) : string :=
  String.substring 0 (String.length s - String.length s') s.

Section Matcher.
Context {R : Type}.

(** Greedy repetition of a class: the longest run first, then shorter
    ones. *)
Fixpoint star (p : ascii -> bool) (s : string) (k : string -> option R)
  : option R :=
  match s with
  | String c s' =>
      if p c then
        match star p s' k with
        | Some r => Some r
        | None => k s
        end
      else k s
  | EmptyString => k s
  end.

Fixpoint rmatch (r : regex) (s : string) (g : groups)
    (k : string -> groups -> option R) : option R :=
  match r with
  | Eps => k s g
  | One p =>
      match s with
      | String c s' => if p c then k s' g else None
      | EmptyString => None
      end
  | Seq a b => rmatch a s g (fun s' g' => rmatch b s' g' k)
  | Alt a b =>
      match rmatch a s g k with
      | Some x => Some x
      | None => rmatch b s g k
      end
  | Opt a =>
      match rmatch a s g k with
      | Some x => Some x
      | None => k s g
      end
  | Plus p =>
      match s with
      | String c s' => if p c then star p s' (fun s'' => k s'' g) else None
      | EmptyString => None
      end
  | Group n a => rmatch a s g (fun s' g' => k s' ((n, consumed s s') :: g'))
  end.
End Matcher.

(** [pattern.match(s)]: a match at the start of [s]; the rest of the input
    and the groups. *)
Definition re_match (r : regex) (s : string) : option (string * groups) :=
  rmatch r s [] (fun s' g => Some (s', g)).

(** [re.findall] for a pattern with one group: group 1 of every match,
    scanning from the left; the search resumes where a match ended (one
    character further after an empty match). *)
Fixpoint findall_fuel (fuel : nat) (r : regex) (s : string) : list string :=
  match fuel with
  | O => []
  | S fuel' =>
      match re_match r s with
      | Some (s', g) =>
          group 1 g ::
          (if (String.length s' <? String.length s)%nat
           then findall_fuel fuel' r s'
           else match s with
                | EmptyString => []
                | String _ t => findall_fuel fuel' r t
                end)
      | None =>
          match s with
          | EmptyString => []
          | String _ t => findall_fuel fuel' r t
          end
      end
  end.

Definition findall (r : regex) (s : string) : list string :=
  findall_fuel (S (String.length s)) r s.

(** Pattern builders. *)
Definition chr (c : ascii) : regex := One (Ascii.eqb c).

Fixpoint lit (s : string) : regex :=
  match s with
  | EmptyString => Eps
  | String c s' => Seq (chr c) (lit s')
  end.

Definition in_range (lo hi c : ascii) : bool :=
  (nat_of_ascii lo <=? nat_of_ascii c)%nat && (nat_of_ascii c <=? nat_of_ascii hi)%nat.

Definition is_digit (c : ascii) : bool := in_range "0" "9" c.

(** Code points between two numbers. *)
Definition code_in (lo hi : nat) (c : ascii) : bool :=
  (lo <=? nat_of_ascii c)%nat && (nat_of_ascii c <=? hi)%nat.

(** The alphanumeric code points from 128 to 255: the letters of Latin-1
    (all of 192..255 but the signs 215 and 247), the ordinal indicators
    170 and 186, the micro sign 181, the superscript digits 178, 179, 185
    and the fractions 188..190. *)
Definition latin1_alnum (c : ascii) : bool :=
  code_in 170 170 c || code_in 178 179 c || code_in 181 181 c
  || code_in 185 186 c || code_in 188 190 c
  || code_in 192 214 c || code_in 216 246 c || code_in 248 255 c.

(** [\w] on a [str]: alphanumeric or the underscore. *)
Definition is_word (c : ascii) : bool :=
  in_range "a" "z" c || in_range "A" "Z" c || is_digit c || Ascii.eqb c "_"
  || latin1_alnum c.

(** [.] without DOTALL: anything but a newline. *)
Definition dot : regex := One (fun c => negb (Ascii.eqb c "010")).

(** ** [_get_shortname] *)

(** The class [[/\-\_\.\w]]. *)
Definition shortname_char (c : ascii) : bool :=
  Ascii.eqb c "/" || Ascii.eqb c "-" || Ascii.eqb c "_" || Ascii.eqb c "."
  || is_word c.

(** [exp = r"https?:\/\/api.github.com\/repos\/([/\-\_\.\w]+)"]; the two
    dots of the host name are not escaped. *)
Definition exp : regex :=
  Seq (lit "http") (Seq (Opt (chr "s")) (Seq (lit "://api") (Seq dot
  (Seq (lit "github") (Seq dot (Seq (lit "com/repos/")
  (Group 1 (Plus shortname_char)))))))).

(** [re.findall(exp, in_url)[0]] *)
Definition _get_shortname (in_url : string) : result string :=
  match findall exp in_url with
  | x :: _ => Ok x
  | [] => Raise IndexError
  end.

(** ** [datetime] and [datetime.strptime]

    [datetime.strptime(s, "%Y-%m-%dT%H:%M:%SZ")] compiles the format to a
    regular expression with one named group per directive (matched ignoring
    case), requires the match to cover all of [s], converts the groups with
    [int] and builds a [datetime], which checks the calendar ranges. *)

Record datetime : Type := {
  year : Z;
  month : Z;
  day : Z;
  hour : Z;
  minute : Z;
  second : Z
}.

Fixpoint lex_ltb (a b : list Z) : bool :=
  match a, b with
  | x :: a', y :: b' => (x <? y) || ((x =? y) && lex_ltb a' b')
  | [], _ :: _ => true
  | _, [] => false
  end.

Definition datetime_fields (d : datetime) : list Z :=
  [year d; month d; day d; hour d; minute d; second d].

(** [a < b] on naive datetimes. *)
Definition datetime_ltb (a b : datetime) : bool :=
  lex_ltb (datetime_fields a) (datetime_fields b).

Definition is_leap (y : Z) : bool :=
  (y mod 4 =? 0) && (negb (y mod 100 =? 0) || (y mod 400 =? 0)).

Definition days_in_month (y m : Z) : Z :=
  if m =? 2 then (if is_leap y then 29 else 28)
  else if (m =? 4) || (m =? 6) || (m =? 9) || (m =? 11) then 30
  else 31.

Definition rng (lo hi : ascii) : regex := One (in_range lo hi).
Definition digit : regex := One is_digit.

(** A letter of the format, matched ignoring case. *)
Definition chr_i (up low : ascii) : regex :=
  One (fun c => Ascii.eqb c up || Ascii.eqb c low).

Definition re_Y : regex := Seq digit (Seq digit (Seq digit digit)).
Definition re_m : regex :=
  Alt (Seq (chr "1") (rng "0" "2")) (Alt (Seq (chr "0") (rng "1" "9")) (rng "1" "9")).
Definition re_d : regex :=
  Alt (Seq (chr "3") (rng "0" "1"))
 (Alt (Seq (rng "1" "2") digit)
 (Alt (Seq (chr "0") (rng "1" "9"))
 (Alt (rng "1" "9")
      (Seq (chr " ") (rng "1" "9"))))).
Definition re_H : regex :=
  Alt (Seq (chr "2") (rng "0" "3")) (Alt (Seq (rng "0" "1") digit) digit).
Definition re_M : regex := Alt (Seq (rng "0" "5") digit) digit.
Definition re_S : regex :=
  Alt (Seq (chr "6") (rng "0" "1")) (Alt (Seq (rng "0" "5") digit) digit).

(** The expression of the format [%Y-%m-%dT%H:%M:%SZ]; groups 1 to 6 are
    Y, m, d, H, M, S. *)
Definition format_regex : regex :=
  Seq (Group 1 re_Y) (Seq (chr "-") (Seq (Group 2 re_m) (Seq (chr "-")
 (Seq (Group 3 re_d) (Seq (chr_i "T" "t") (Seq (Group 4 re_H) (Seq (chr ":")
 (Seq (Group 5 re_M) (Seq (chr ":") (Seq (Group 6 re_S) (chr_i "Z" "z"))))))))))).

(** [int] of a group: decimal digits, a leading blank is ignored. *)
Definition int_of_group (s : string) : Z :=
  fold_left
    (fun acc c =>
       if is_digit c then 10 * acc + (Z.of_nat (nat_of_ascii c) - 48) else acc)
    (list_ascii_of_string s) 0.

Definition strptime (v : json) : result datetime :=
  match v with
  | JStr s =>
      match re_match format_regex s with
      | Some (EmptyString, g) =>
          let y := int_of_group (group 1 g) in
          let m := int_of_group (group 2 g) in
          let d := int_of_group (group 3 g) in
          let ss := int_of_group (group 6 g) in
          if (1 <=? y) && (d <=? days_in_month y m) && (ss <=? 59) then
            Ok {| year := y; month := m; day := d;
                  hour := int_of_group (group 4 g);
                  minute := int_of_group (group 5 g);
                  second := ss |}
          else Raise ValueError
      | _ => Raise ValueError
      end
  | _ => Raise TypeError
  end.

(** ** [str] and [repr] of the values of a response

    An f-string renders a value with [str]: a string as it is, the other
    values as [repr] does.  [repr] of a string chooses the quotes, escapes
    the quote, the backslash, tab, newline and carriage return, and writes
    the code points that are not printable as [\xhh]. *)

Definition hex_digit (n : nat) : ascii :=
  nth n (list_ascii_of_string "0123456789abcdef") "0"%char.

Definition hex2 (c : ascii) : string :=
  String (hex_digit (nat_of_ascii c / 16))
         (String (hex_digit (nat_of_ascii c mod 16)) EmptyString).

(** [str.isprintable] on a code point below 256: not a control character,
    not the no-break space (160), not the soft hyphen (173). *)
Definition is_printable (c : ascii) : bool :=
  code_in 32 126 c || code_in 161 172 c || code_in 174 255 c.

Definition contains_char (c : ascii) (s : string) : bool :=
  existsb (Ascii.eqb c) (list_ascii_of_string s).

Definition repr_char (quote c : ascii) : string :=
  if Ascii.eqb c quote || Ascii.eqb c "\" then String "\" (String c EmptyString)
  else if Ascii.eqb c "009" then "\t"
  else if Ascii.eqb c "010" then "\n"
  else if Ascii.eqb c "013" then "\r"
  else if is_printable c then String c EmptyString
  else "\x" ++ hex2 c.

(** [repr(s)]: double quotes when [s] has a single quote and no double
    quote, single quotes otherwise. *)
Definition repr_str (s : string) : string :=
  let quote : ascii :=
    if contains_char "'" s && negb (contains_char "034" s)
    then "034"%char else "'"%char in
  String quote
    (String.concat "" (map (repr_char quote) (list_ascii_of_string s))
     ++ String quote EmptyString).

(** [repr(v)]; of an object the items that lookup finds, in the order of
    the keys. *)
Fixpoint py_repr (v : json) : string :=
  match v with
  | JNull => "None"
  | JBool true => "True"
  | JBool false => "False"
  | JNum n => str_of_int n
  | JStr s => repr_str s
  | JArr l =>
      "[" ++ String.concat ", "
               ((fix elements (l : list json) : list string :=
                   match l with
                   | [] => []
                   | x :: l' => py_repr x :: elements l'
                   end) l)
      ++ "]"
  | JObj kv =>
      "{" ++ String.concat ", "
               ((fix items (seen : list string) (kv : list (string * json))
                   : list string :=
                   match kv with
                   | [] => []
                   | (k, x) :: kv' =>
                       if existsb (String.eqb k) seen then items seen kv'
                       else (repr_str k ++ ": " ++ py_repr x) :: items (k :: seen) kv'
                   end) [] kv)
      ++ "}"
  end.

(** [str(v)], what [f"{v}"] inserts. *)
Definition py_str (v : json) : string :=
  match v with
  | JStr s => s
  | _ => py_repr v
  end.

(** ** The module's constants and its environment *)

(** Minimum number of PRs before a shirt is awarded. *)
Definition PRS_FOR_SHIRT : Z := 4.

Definition GITHUB_NONEXISTENT_USER_MESSAGE : string :=
  "The listed users cannot be searched either because the users do not exist "
  ++ "or you do not have permission to view the users.".

Definition GITHUB_TOPICS_ACCEPT_HEADER : list (string * string) :=
  [("Accept", "application/vnd.github.mercy-preview+json")].

(** What the module takes from outside: the year read from the clock when
    the module is loaded, the token of [bot.constants.Tokens] and the
    network, a function from a request to the parsed body of its
    response. *)
Record env : Type := {
  CURRENT_YEAR : Z;
  Tokens_github : option string;
  http_get : string -> list (string * string) -> json
}.

Definition REQUEST_HEADERS (E : env) : list (string * string) :=
  let base := [("User-Agent", "Python Discord Hacktoberbot")] in
  match Tokens_github E with
  | Some (String c t) => (base ++ [("Authorization", ("token " ++ String c t)%string)])%list
  | _ => base
  end.

(** [session.get(url, headers=...)] followed by [resp.json()]. *)
Definition session_get (E : env) (url : string) (headers : list (string * string))
  : M json :=
  emit (HttpGet url headers) ;;; ret (http_get E url headers).

Definition logging (lvl : level) (msg : string) : M unit :=
  emit (Log lvl msg []).

(** The dict that [get_october_prs] builds for a pull request. *)
Record itemdict : Type := {
  repo_url : string;
  repo_shortname : string;
  created_at : datetime
}.

(** What [get_october_prs] returns: a list, [False] or [None]. *)
Inductive prs : Type :=
| PrsList (outlist : list itemdict)
| PrsFalse
| PrsNone.

(** Truth value of the result, as [if prs:] tests it. *)
Definition truthy (p : prs) : bool :=
  match p with
  | PrsList (_ :: _) => true
  | _ => false
  end.

(** The list inside a result that is a list. *)
Definition prs_list (p : prs) : list itemdict :=
  match p with
  | PrsList outlist => outlist
  | _ => []
  end.

(** ** [get_october_prs] *)

(** [datetime(int(CURRENT_YEAR), 10, 3, 0, 0, 0)]; the year of the clock is
    a year that [datetime] accepts. *)
Definition oct3 (E : env) : datetime :=
  {| year := CURRENT_YEAR E; month := 10; day := 3;
     hour := 0; minute := 0; second := 0 |}.

Definition topics_query_url (shortname : string) : string :=
  "https://api.github.com/repos/" ++ shortname ++ "/topics".

(** The dict of a pull request, from its short name and its date. *)
Definition new_itemdict (shortname : string) (created : datetime) : itemdict :=
  {| repo_url := "https://www.github.com/" ++ shortname;
     repo_shortname := shortname;
     created_at := created |}.

(** The body of [for item in jsonresp["items"]]: the list [outlist] after
    the iteration. *)
Definition loop_body (E : env) (jsonresp item : json) (outlist : list itemdict)
  : M (list itemdict) :=
  in_url <- lift (py_getitem item (JStr "repository_url")) ;;
  shortname <- lift (match in_url with
                     | JStr u => _get_shortname u
                     | _ => Raise TypeError
                     end) ;;
  created_str <- lift (py_getitem item (JStr "created_at")) ;;
  created <- lift (strptime created_str) ;;
  let itemdict := new_itemdict shortname created in
  (* PRs before oct 3 without invalid/spam will count *)
  if datetime_ltb created (oct3 E) then ret (outlist ++ [itemdict])%list
  else
    jsonresp2 <- session_get E (topics_query_url shortname) GITHUB_TOPICS_ACCEPT_HEADER ;;
    has_names <- lift (py_in_keys "names" jsonresp2) ;;
    (if negb has_names then
       message <- lift (py_getitem jsonresp2 (JStr "message")) ;;
       text <- lift (py_str_add ("Error fetching topics for " ++ shortname ++ ": ") message) ;;
       logging ERROR text
     else ret tt) ;;;
    (* PRs after must be in repo with 'hacktoberfest' topic
       unless it has 'hacktoberfest-accepted' label *)
    names <- lift (py_getitem jsonresp2 (JStr "names")) ;;
    in_topics <- lift (py_contains "hacktoberfest" names) ;;
    admit_it <- (if in_topics then ret true
                 else labels <- lift (py_getitem jsonresp (JStr "labels")) ;;
                      lift (py_contains "hacktoberfest-accpeted" labels)) ;;
    if admit_it then ret (outlist ++ [itemdict])%list else ret outlist.

Fixpoint for_items (E : env) (jsonresp : json) (items : list json)
    (outlist : list itemdict) : M (list itemdict) :=
  match items with
  | [] => ret outlist
  | item :: items' =>
      outlist' <- loop_body E jsonresp item outlist ;;
      for_items E jsonresp items' outlist'
  end.

Definition query_url (E : env) (github_username : string) : string :=
  let base_url := "https://api.github.com/search/issues?q=" in
  let action_type := "pr" in
  let is_query := "public" in
  let not_query := "draft" in
  let date_range :=
    str_of_int (CURRENT_YEAR E) ++ "-10-01T00:00:00%2B14:00.."
    ++ str_of_int (CURRENT_YEAR E) ++ "-11-01T00:00:00-11:00" in
  let per_page := "300" in
  base_url
  ++ "-label:" ++ "invalid"
  ++ "+-label:" ++ "spam"
  ++ "+type:" ++ action_type
  ++ "+is:" ++ is_query
  ++ "+author:" ++ github_username
  ++ "+-is:" ++ not_query
  ++ "+created:" ++ date_range
  ++ "&per_page=" ++ per_page.

Definition get_october_prs (E : env) (github_username : string) : M prs :=
  logging INFO ("Generating Hacktoberfest PR query for GitHub user: '"
                ++ github_username ++ "'") ;;;
  logging DEBUG ("GitHub query URL generated: " ++ query_url E github_username) ;;;
  jsonresp <- session_get E (query_url E github_username) (REQUEST_HEADERS E) ;;
  has_message <- lift (py_in_keys "message" jsonresp) ;;
  if has_message then
    (* One of the parameters is invalid, short circuit for now *)
    errors <- lift (py_getitem jsonresp (JStr "errors")) ;;
    error0 <- lift (py_getitem errors (JNum 0)) ;;
    api_message <- lift (py_getitem error0 (JStr "message")) ;;
    (* Ignore logging non-existent users or users we do not have permission to see *)
    if py_eq_str api_message GITHUB_NONEXISTENT_USER_MESSAGE then
      logging DEBUG ("No GitHub user found named '" ++ github_username ++ "'") ;;;
      ret PrsFalse
    else
      logging ERROR ("GitHub API request for '" ++ github_username
                     ++ "' failed with message: " ++ py_str api_message) ;;;
      ret PrsFalse
  else
    total_count <- lift (py_getitem jsonresp (JStr "total_count")) ;;
    if py_eq_zero total_count then
      (* Short circuit if there aren't any PRs *)
      logging INFO ("No Hacktoberfest PRs found for GitHub user: '"
                    ++ github_username ++ "'") ;;;
      ret PrsNone
    else
      items_v <- lift (py_getitem jsonresp (JStr "items")) ;;
      items <- lift (py_iter items_v) ;;
      outlist <- for_items E jsonresp items [] ;;
      ret (PrsList outlist).

(** ** [collections.Counter]

    A [Counter] is a dict from elements to counts; the dict keeps its keys
    in the order of their first insertion.  [most_common(n)] is
    [heapq.nlargest(n, items, key=count)], which the library specifies as
    [sorted(items, key=count, reverse=True)[:n]]; [sorted] is stable, with
    [reverse=True] too: items of equal count keep their order. *)

Definition counter : Type := list (string * Z).

(** [c[elem] = c.get(elem, 0) + 1] *)
Fixpoint counter_incr (elem : string) (c : counter) : counter :=
  match c with
  | [] => [(elem, 1)]
  | (k, n) :: c' =>
      if String.eqb elem k then (k, n + 1) :: c'
      else (k, n) :: counter_incr elem c'
  end.

Definition Counter (iterable : list string) : counter :=
  fold_left (fun c elem => counter_incr elem c) iterable [].

(** Insertion of an item that stood before all those of [l]: it goes in
    front of the first item whose count is not larger. *)
Fixpoint insert_desc (x : string * Z) (l : counter) : counter :=
  match l with
  | [] => [x]
  | y :: l' => if snd y <=? snd x then x :: l else y :: insert_desc x l'
  end.

(** [sorted(c.items(), key=itemgetter(1), reverse=True)] *)
Definition sorted_desc (c : counter) : counter :=
  fold_right insert_desc [] c.

Definition most_common (n : nat) (c : counter) : counter :=
  firstn n (sorted_desc c).

(** ** [_summarize_prs], [build_embed], [get_stats] *)

Record pr_stats : Type := {
  n_prs : Z;
  top5 : list (string * Z)
}.

Definition _summarize_prs (prs : list itemdict) : pr_stats :=
  let contributed_repos := map repo_shortname prs in
  {| n_prs := Z.of_nat (List.length prs);
     top5 := most_common 5 (Counter contributed_repos) |}.

(** Return "contribution" or "contributions" based on the value of n. *)
Definition _contributionator (n : Z) : string :=
  if n =? 1 then "contribution" else "contributions".

Definition newline : string := String "010" EmptyString.

Definition _build_top5str (stats : pr_stats) : string :=
  let base_url := "https://www.github.com/" in
  let contributionstrs :=
    map (fun repo : string * Z =>
           let n := snd repo in
           str_of_int n ++ " " ++ _contributionator n ++ " to ["
           ++ fst repo ++ "](" ++ base_url ++ fst repo ++ ")")
        (top5 stats) in
  String.concat newline contributionstrs.

(** The message about the T-shirt that [build_embed] composes from the
    number of PRs. *)
Definition shirtstr (github_username : string) (n : Z) : string :=
  if PRS_FOR_SHIRT <=? n then
    "**" ++ github_username ++ " has earned a T-shirt or a tree!**"
  else if n =? PRS_FOR_SHIRT - 1 then
    "**" ++ github_username ++ " is 1 PR away from a T-shirt or a tree!**"
  else
    "**" ++ github_username ++ " is " ++ str_of_int (PRS_FOR_SHIRT - n)
    ++ " PRs away from a T-shirt or a tree!**".

Definition build_embed (github_username : string) (prs : list itemdict) : M Embed :=
  logging INFO ("Building Hacktoberfest embed for GitHub user: '"
                ++ github_username ++ "'") ;;;
  let stats := _summarize_prs prs in
  let n := n_prs stats in
  let stats_embed :=
    {| title := github_username ++ "'s Hacktoberfest";
       color := 0x9c4af7;
       description :=
         github_username ++ " has made " ++ str_of_int n ++ " "
         ++ _contributionator n ++ " in " ++ "October" ++ newline ++ newline
         ++ shirtstr github_username n ++ newline ++ newline;
       thumbnail_url := "https://www.github.com/" ++ github_username ++ ".png";
       author_name := "Hacktoberfest";
       author_url := "https://hacktoberfest.digitalocean.com";
       author_icon_url := "https://avatars1.githubusercontent.com/u/35706162?s=200&v=4";
       fields := [("Top 5 Repositories:", _build_top5str stats)] |} in
  logging INFO ("Hacktoberfest PR built for GitHub user '" ++ github_username ++ "'") ;;;
  ret stats_embed.

Definition get_stats (E : env) (github_username : string) : M unit :=
  prs <- get_october_prs E github_username ;;
  if truthy prs then
    stats_embed <- build_embed github_username (prs_list prs) ;;
    emit (Send "Here are some stats!" (Some stats_embed))
  else
    emit (Send ("No valid October GitHub contributions found for '"
                ++ github_username ++ "'") None).

(** ** Observations on runs *)

(** Number of requests in a trace. *)
Definition http_calls (t : list event) : nat :=
  List.length (filter (fun e => match e with HttpGet _ _ => true | _ => false end) t).

(** The messages posted to the channel, in order. *)
Fixpoint sent (t : list event) : list (string * option Embed) :=
  match t with
  | [] => []
  | Send content embed :: t' => (content, embed) :: sent t'
  | _ :: t' => sent t'
  end.

(** A computation that posts nothing to the channel. *)
Definition silent {A : Type} (m : M A) : Prop := sent (trace m) = [].

(** The answer of [get_stats] when there is nothing to show. *)
Definition no_contributions_message (github_username : string) : string :=
  "No valid October GitHub contributions found for '" ++ github_username ++ "'".

(** The log records of a given level. *)
Fixpoint logged (lvl : level) (t : list event) : list string :=
  match t with
  | [] => []
  | Log l msg _ :: t' =>
      match l, lvl with
      | DEBUG, DEBUG | INFO, INFO | ERROR, ERROR => msg :: logged lvl t'
      | _, _ => logged lvl t'
      end
  | _ :: t' => logged lvl t'
  end.

(** The decision of the loop on one item: whether the iteration appends
    the item to the list. *)
Definition qualify (E : env) (jsonresp item : json) : bool :=
  match outcome (loop_body E jsonresp item []) with
  | Ok (_ :: _) => true
  | _ => false
  end.

(** A loop body that leaves the list as it is, appends one dict to it or
    raises, the same way and with the same trace for every list. *)
Definition appends (body : list itemdict -> M (list itemdict)) : Prop :=
  exists (t : list event) (d : result (option itemdict)),
    forall outlist,
      body outlist
      = (t, match d with
            | Ok (Some x) => Ok (outlist ++ [x])%list
            | Ok None => Ok outlist
            | Raise e => Raise e
            end).

(** The response to the search request of a user. *)
Definition search_response (E : env) (github_username : string) : json :=
  http_get E (query_url E github_username) (REQUEST_HEADERS E).

(** The items the loop of [get_october_prs] goes through. *)
Definition search_items (E : env) (github_username : string) : list json :=
  match rbind (py_getitem (search_response E github_username) (JStr "items")) py_iter with
  | Ok items => items
  | Raise _ => []
  end.

(** Position of the first occurrence of [r] in [l] ([length l] if none). *)
Fixpoint first_index (r : string) (l : list string) : nat :=
  match l with
  | [] => O
  | x :: l' => if String.eqb r x then O else S (first_index r l')
  end.

Definition occurrences (r : string) (l : list string) : Z :=
  Z.of_nat (count_occ string_dec l r).

(** [a] ranks before [b]: a larger count, or the same count and an earlier
    first occurrence in [repos]. *)
Definition ranks_before (repos : list string) (a b : string * Z) : Prop :=
  snd b < snd a \/
  (snd a = snd b /\ (first_index (fst a) repos < first_index (fst b) repos)%nat).

(** One more occurrence of [x] in an item of key [x]. *)
Definition bump (x : string) (p : string * Z) : string * Z :=
  if String.eqb x (fst p) then (fst p, snd p + 1) else p.

(** The position of the first occurrence in [l] orders the keys. *)
Definition earlier (l : list string) (a b : string) : Prop :=
  (first_index a l < first_index b l)%nat.

(** What a counter of the elements of [l] holds: each element of [l] once
    as a key, in the order of the first occurrences, with the number of
    its occurrences. *)
Record counts_of (l : list string) (c : counter) : Prop := {
  keys_nodup : NoDup (map fst c);
  keys_elements : forall k, In k (map fst c) <-> In k l;
  counts_exact : Forall (fun p => snd p = occurrences (fst p) l) c;
  keys_ordered : StronglySorted (earlier l) (map fst c)
}.

Definition sum_counts (c : list (string * Z)) : Z :=
  fold_right (fun p acc => snd p + acc) 0 c.

Definition distinct (l : list string) : nat :=
  List.length (nodup string_dec l).

Fixpoint string_forallb (p : ascii -> bool) (s : string) : bool :=
  match s with
  | EmptyString => true
  | String c s' => p c && string_forallb p s'
  end.

(** The first character of [s], if any, is not in the class [p]. *)
Definition stops (p : ascii -> bool) (s : string) : bool :=
  match s with
  | EmptyString => true
  | String c _ => negb (p c)
  end.

(** The exception of an iteration whose topics response has no "names":
    the one of the log call when the response has no string under
    "message", the one of [jsonresp2["names"]] otherwise. *)
Definition topics_error_exn (kv : list (string * json)) : exn :=
  match assoc "message" kv with
  | Some (JStr _) => KeyError (JStr "names")
  | Some _ => TypeError
  | None => KeyError (JStr "message")
  end.

(** The three messages about the T-shirt. *)
Definition earned_message (github_username : string) : string :=
  "**" ++ github_username ++ " has earned a T-shirt or a tree!**".

Definition one_away_message (github_username : string) : string :=
  "**" ++ github_username ++ " is 1 PR away from a T-shirt or a tree!**".

Definition away_message (github_username : string) (missing : Z) : string :=
  "**" ++ github_username ++ " is " ++ str_of_int missing
  ++ " PRs away from a T-shirt or a tree!**".

(** [s[n:]] *)
Fixpoint drop (n : nat) (s : string) : string :=
  match n, s with
  | O, _ => s
  | S n', String _ s' => drop n' s'
  | S _, EmptyString => EmptyString
  end.

(** The pattern matches nowhere in [s]. *)
Definition no_match (r : regex) (s : string) : Prop :=
  forall n, re_match r (drop n s) = None.

(** ** Sample responses *)

Module Sample.

Definition item (repository_url created : string) : json :=
  JObj [("repository_url", JStr repository_url); ("created_at", JStr created)].

Definition early : json :=
  item "https://api.github.com/repos/python-discord/seasonalbot" "2020-10-02T23:59:59Z".

Definition late : json :=
  item "https://api.github.com/repos/octocat/hello-world" "2020-10-03T00:00:00Z".

Definition search (items : list json) : json :=
  JObj [("total_count", JNum (Z.of_nat (List.length items)));
        ("incomplete_results", JBool false);
        ("items", JArr items)].

Definition is_search (url : string) : bool :=
  String.prefix "https://api.github.com/search/issues?q=" url.

(** A network that answers the search with [search_resp] and every
    other request with [topics_resp]. *)
Definition network (search_resp topics_resp : json) : env :=
  {| CURRENT_YEAR := 2020;
     Tokens_github := None;
     http_get := fun url _ => if is_search url then search_resp else topics_resp |}.

Definition topics (names : list string) : json :=
  JObj [("names", JArr (map JStr names))].

Definition not_found : json :=
  JObj [("message", JStr "Not Found");
        ("documentation_url", JStr "https://docs.github.com/rest")].

Definition no_such_user : json :=
  JObj [("message", JStr "Validation Failed");
        ("errors", JArr [JObj [("message", JStr GITHUB_NONEXISTENT_USER_MESSAGE);
                               ("resource", JStr "Search");
                               ("field", JStr "q");
                               ("code", JStr "invalid")]]);
        ("documentation_url", JStr "https://docs.github.com/v3/search/")].

Definition other_failure : json :=
  JObj [("message", JStr "Validation Failed");
        ("errors", JArr [JObj [("message", JStr "The search is longer than 256 characters.");
                               ("resource", JStr "Search");
                               ("field", JStr "q");
                               ("code", JStr "invalid")]])].

Definition rate_limited : json :=
  JObj [("message", JStr "API rate limit exceeded for 203.0.113.7.");
        ("documentation_url",
         JStr "https://docs.github.com/rest/overview/resources-in-the-rest-api#rate-limiting")].

Definition no_results : json := search [].

End Sample.

(** ** Further observations on runs *)

(** The requests of a trace, in order: URL and headers. *)
Fixpoint requests (t : list event) : list (string * list (string * string)) :=
  match t with
  | [] => []
  | HttpGet url headers :: t' => (url, headers) :: requests t'
  | _ :: t' => requests t'
  end.

(** A computation that makes no request. *)
Definition quiet {A : Type} (m : M A) : Prop := requests (trace m) = [].

(** A computation that makes no request, or one request for the topics
    of a repository, with the headers of the topics preview. *)
Definition asks_topics {A : Type} (m : M A) : Prop :=
  requests (trace m) = []
  \/ exists shortname,
       requests (trace m) = [(topics_query_url shortname, GITHUB_TOPICS_ACCEPT_HEADER)].

(** The request for the topics of a repository. *)
Definition is_topics_request (r : string * list (string * string)) : Prop :=
  snd r = GITHUB_TOPICS_ACCEPT_HEADER /\ exists shortname, fst r = topics_query_url shortname.

(** What an iteration of the loop appends to the empty list. *)
Definition admitted (E : env) (jsonresp item : json) : list itemdict :=
  match outcome (loop_body E jsonresp item []) with
  | Ok l => l
  | Raise _ => []
  end.

(** The part of [exp] after the scheme. *)
Definition exp_tail : regex :=
  Seq (lit "://api") (Seq dot
  (Seq (lit "github") (Seq dot (Seq (lit "com/repos/")
  (Group 1 (Plus shortname_char)))))).

Definition is_newline (c : ascii) : bool := Ascii.eqb c "010".

(** A URL that [exp] matches from its start: scheme [http] or [https],
    [api], [github] and [com] separated by any two characters but
    newlines, and a run of characters of the class after [/repos/]. *)
Definition repo_api_url (scheme : string) (c1 c2 : ascii) (name after : string) : string :=
  "http" ++ scheme ++ "://api" ++ String c1 ("github" ++ String c2 ("com/repos/" ++ name ++ after)).

(** A dict whose URL is the GitHub page of its short name, the short name
    being a non-empty string of characters of the class of [exp]. *)
Definition well_formed_itemdict (d : itemdict) : Prop :=
  repo_url d = "https://www.github.com/" ++ repo_shortname d
  /\ repo_shortname d <> ""
  /\ string_forallb shortname_char (repo_shortname d) = true.

(** A loop body that, when it returns, has left the list as it was or has
    appended one dict that satisfies [P]. *)
Definition appends_only (P : itemdict -> Prop)
    (body : list itemdict -> M (list itemdict)) : Prop :=
  forall outlist outlist',
    outcome (body outlist) = Ok outlist' ->
    outlist' = outlist \/ exists x, P x /\ outlist' = (outlist ++ [x])%list.

(** An item that the loop takes without asking for topics: its URL gives a
    short name and its date parses to a time before the cut-off. *)
Definition in_grace (E : env) (item : json) : bool :=
  match py_getitem item (JStr "repository_url"), py_getitem item (JStr "created_at") with
  | Ok (JStr in_url), Ok created_str =>
      match _get_shortname in_url, strptime created_str with
      | Ok _, Ok created => datetime_ltb created (oct3 E)
      | _, _ => false
      end
  | _, _ => false
  end.

(** ** The linked accounts

    The cog keeps a dict from Discord IDs (as strings) to accounts, and
    writes it to a JSON file after every change.  A dict is kept as an
    association list in insertion order; its keys are unique: a list stands
    for the dict of the first binding of each key.  The file is taken to
    hold an object of accounts whose dates are strings, as
    [save_linked_users] writes it; its members are kept in the order of the
    text. *)

(** What the commands read of [ctx]. *)
Record Context : Type := {
  author_id : Z;
  author_mention : string;
  prefix : string
}.

(** [datetime.now()]: a [datetime] and its microseconds. *)
Record clock : Type := {
  clock_datetime : datetime;
  microsecond : Z
}.

(** The value under "date_added": the reading of the clock for an account
    linked since the cog was loaded, the string of the file otherwise. *)
Inductive date : Type :=
| Now (c : clock)
| Text (s : string).

(** The dict [{"github_username": ..., "date_added": ...}]. *)
Record account : Type := {
  username : string;
  date_added : date
}.

Definition dict (V : Type) : Type := list (string * V).

(** [d[k]] when [k in d] *)
Fixpoint dict_get {V : Type} (k : string) (d : dict V) : option V :=
  match d with
  | [] => None
  | (k', v) :: d' => if String.eqb k k' then Some v else dict_get k d'
  end.

(** [d[k] = v]: the value of a key that is there is replaced where it
    stands, a new key goes to the end. *)
Fixpoint dict_set {V : Type} (k : string) (v : V) (d : dict V) : dict V :=
  match d with
  | [] => [(k, v)]
  | (k', v') :: d' =>
      if String.eqb k k' then (k', v) :: d' else (k', v') :: dict_set k v d'
  end.

(** The dict after [d.pop(k, None)]. *)
Definition dict_remove {V : Type} (k : string) (d : dict V) : dict V :=
  filter (fun p => negb (String.eqb k (fst p))) d.

(** [s.zfill(width)] for the digits of a number. *)
Definition zfill (width : nat) (s : string) : string :=
  string_of_list_ascii (repeat "0"%char (width - String.length s)) ++ s.

(** [str(d)] for a naive [datetime]: ISO format with a blank, the
    microseconds when they are not zero. *)
Definition str_of_clock (c : clock) : string :=
  let d := clock_datetime c in
  zfill 4 (str_of_int (year d)) ++ "-" ++ zfill 2 (str_of_int (month d)) ++ "-"
  ++ zfill 2 (str_of_int (day d)) ++ " "
  ++ zfill 2 (str_of_int (hour d)) ++ ":" ++ zfill 2 (str_of_int (minute d)) ++ ":"
  ++ zfill 2 (str_of_int (second d))
  ++ (if microsecond c =? 0 then "" else "." ++ zfill 6 (str_of_int (microsecond c))).

(** The contents of the file: the members of its object in the order of
    the text, for each ID the user name and the date as a string. *)
Definition file_content : Type := dict (string * string).

(** The cog: the path of the file and the dict. *)
Record HacktoberStats : Type := {
  link_json : string;
  linked_accounts : dict account
}.

(** [d.items()]: each key once, with the value that lookup finds, in the
    order of the keys. *)
Fixpoint dict_items_from {V : Type} (seen : list string) (d : dict V) : dict V :=
  match d with
  | [] => []
  | (k, v) :: d' =>
      if existsb (String.eqb k) seen then dict_items_from seen d'
      else (k, v) :: dict_items_from (k :: seen) d'
  end.

Definition dict_items {V : Type} (d : dict V) : dict V := dict_items_from [] d.

(** [json.dump(self.linked_accounts, file, default=str)]: a member for
    each item of the dict; [default] turns a [datetime] into its string. *)
Definition dump (accounts : dict account) : file_content :=
  map (fun p => (fst p, (username (snd p),
                         match date_added (snd p) with
                         | Now c => str_of_clock c
                         | Text s => s
                         end)))
      (dict_items accounts).

(** [json.load(file)]: the members are entered into a new dict one after
    the other, so that of a repeated key the last value stays, at the place
    of the first. *)
Definition load (content : file_content) : dict account :=
  fold_left
    (fun d p => dict_set (fst p)
                         {| username := fst (snd p); date_added := Text (snd (snd p)) |}
                         d)
    content [].

(** The effects of the commands on the cog: a trace, the cog and the file
    after the command. *)
Definition run : Type := (list event * (HacktoberStats * option file_content))%type.

Definition logging_info (msg : string) : event := Log INFO msg [].

(** Return stringified Message author ID and mentionable string. *)
Definition _author_mention_from_context (ctx : Context) : string * string :=
  (str_of_int (author_id ctx), author_mention ctx).

Definition load_linked_users (path : string) (file : option file_content)
  : list event * dict account :=
  match file with
  | Some content =>
      let linked := load content in
      ([logging_info ("Loading linked GitHub accounts from '" ++ path ++ "'");
        logging_info ("Loaded " ++ str_of_int (Z.of_nat (List.length linked))
                      ++ " linked GitHub accounts from '" ++ path ++ "'")],
       linked)
  | None =>
      ([logging_info ("Linked account log: '" ++ path ++ "' does not exist")], [])
  end.

(** [__init__], the path being the one that [make_persistent] returns. *)
Definition init (path : string) (file : option file_content)
  : list event * HacktoberStats :=
  let (t, linked) := load_linked_users path file in
  (t, {| link_json := path; linked_accounts := linked |}).

Definition save_linked_users (self : HacktoberStats) : list event * option file_content :=
  ([logging_info ("Saving linked_accounts to '" ++ link_json self ++ "'");
    logging_info ("linked_accounts saved to '" ++ link_json self ++ "'")],
   Some (dump (linked_accounts self))).

(** Truth value of an optional string argument. *)
Definition given (github_username : option string) : option string :=
  match github_username with
  | Some (String c s) => Some (String c s)
  | _ => None
  end.

Definition with_accounts (self : HacktoberStats) (accounts : dict account) : HacktoberStats :=
  {| link_json := link_json self; linked_accounts := accounts |}.

Definition link_user (now : clock) (self : HacktoberStats) (file : option file_content)
    (ctx : Context) (github_username : option string) : run :=
  let (author_id, author_mention) := _author_mention_from_context ctx in
  match given github_username with
  | Some github_username =>
      let t1 :=
        match dict_get author_id (linked_accounts self) with
        | Some old =>
            [logging_info (author_id ++ " has changed their github link from '"
                           ++ username old ++ "' to '" ++ github_username ++ "'");
             Send (author_mention ++ ", your GitHub username has been updated to: '"
                   ++ github_username ++ "'") None]
        | None =>
            [logging_info (author_id ++ " has added a github link to '"
                           ++ github_username ++ "'");
             Send (author_mention ++ ", your GitHub username has been added") None]
        end in
      let self' :=
        with_accounts self
          (dict_set author_id
                    {| username := github_username; date_added := Now now |}
                    (linked_accounts self)) in
      let (t2, file') := save_linked_users self' in
      ((t1 ++ t2)%list, (self', file'))
  | None =>
      ([logging_info (author_id
                      ++ " tried to link a GitHub account but didn't provide a username");
        Send (author_mention ++ ", a GitHub username is required to link your account") None],
       (self, file))
  end.

Definition unlink_user (self : HacktoberStats) (file : option file_content)
    (ctx : Context) : run :=
  let (author_id, author_mention) := _author_mention_from_context ctx in
  let stored_user := dict_get author_id (linked_accounts self) in
  let self' := with_accounts self (dict_remove author_id (linked_accounts self)) in
  let t1 :=
    match stored_user with
    | Some _ =>
        [Send (author_mention ++ ", your GitHub profile has been unlinked") None;
         logging_info (author_id ++ " has unlinked their GitHub account")]
    | None =>
        [Send (author_mention ++ ", you do not currently have a linked GitHub account") None;
         logging_info (author_id
                       ++ " tried to unlink their GitHub account but no account was linked")]
    end in
  let (t2, file') := save_linked_users self' in
  ((t1 ++ t2)%list, (self', file')).

Definition not_linked_message (ctx : Context) : string :=
  author_mention ctx ++ ", you have not linked a GitHub account" ++ newline ++ newline
  ++ "You can link your GitHub account using:" ++ newline
  ++ "```" ++ prefix ctx ++ "hackstats link github_username```" ++ newline
  ++ "Or query GitHub stats directly using:" ++ newline
  ++ "```" ++ prefix ctx ++ "hackstats github_username```".

Definition hacktoberstats_group (E : env) (self : HacktoberStats) (ctx : Context)
    (github_username : option string) : M unit :=
  match given github_username with
  | Some github_username => get_stats E github_username
  | None =>
      let (author_id, author_mention) := _author_mention_from_context ctx in
      match dict_get author_id (linked_accounts self) with
      | Some linked =>
          emit (logging_info ("Getting stats for " ++ author_id
                              ++ " linked GitHub account '" ++ username linked ++ "'")) ;;;
          get_stats E (username linked)
      | None =>
          emit (Send (not_linked_message ctx) None)
      end
  end.

(** The cog after a restart of the bot that finds [file]. *)
Definition reload (self : HacktoberStats) (file : option file_content) : HacktoberStats :=
  snd (init (link_json self) file).


(** * Properties *)

(** ** Checks of the library models on concrete inputs *)

Example get_shortname_doc :
  _get_shortname "https://api.github.com/repos/python-discord/seasonalbot"
  = Ok "python-discord/seasonalbot".
Proof. vm_compute. reflexivity. Qed.

Example strptime_github :
  strptime (JStr "2020-10-02T23:59:59Z")
  = Ok {| year := 2020; month := 10; day := 2; hour := 23; minute := 59; second := 59 |}.
Proof. vm_compute. reflexivity. Qed.

Example strptime_lenient :
  strptime (JStr "2020-2-29t7:5:9z")
  = Ok {| year := 2020; month := 2; day := 29; hour := 7; minute := 5; second := 9 |}.
Proof. vm_compute. reflexivity. Qed.

Example strptime_bad_day : strptime (JStr "2021-02-29T00:00:00Z") = Raise ValueError.
Proof. vm_compute. reflexivity. Qed.

Example strptime_trailing : strptime (JStr "2020-10-02T23:59:59Z ") = Raise ValueError.
Proof. vm_compute. reflexivity. Qed.

Example get_october_prs_sample :
  outcome (get_october_prs
             (Sample.network (Sample.search [Sample.early; Sample.late])
                             (Sample.topics ["python"; "hacktoberfest"]))
             "octocat")
  = Ok (PrsList
          [{| repo_url := "https://www.github.com/python-discord/seasonalbot";
              repo_shortname := "python-discord/seasonalbot";
              created_at := {| year := 2020; month := 10; day := 2;
                               hour := 23; minute := 59; second := 59 |} |};
           {| repo_url := "https://www.github.com/octocat/hello-world";
              repo_shortname := "octocat/hello-world";
              created_at := {| year := 2020; month := 10; day := 3;
                               hour := 0; minute := 0; second := 0 |} |}]).
Proof. vm_compute. reflexivity. Qed.

(** ** The effect monad *)

Lemma bind_lift_ok {A B : Type} (a : A) (f : A -> M B) :
  bind (lift (Ok a)) f = f a.
Proof. unfold bind, lift. destruct (f a). reflexivity. Qed.

Lemma outcome_bind_raise {A B : Type} (m : M A) (f : A -> M B) (e : exn) :
  outcome m = Raise e -> outcome (bind m f) = Raise e.
Proof.
  destruct m as [t [a | e']]; simpl; intros H; [discriminate |].
  injection H as ->. reflexivity.
Qed.

(** ** The grace period *)

(** C1. An item whose repository URL yields a short name and whose
    [created_at] parses to a time strictly before 3 October of the current
    year is appended to the list whatever the rest of the search response
    is, and the iteration makes no request: its trace is empty, so the
    topics of the repository are not asked for. *)
Theorem grace_period_admits_without_lookup
    (E : env) (jsonresp item : json) (outlist : list itemdict)
    (in_url shortname : string) (created_str : json) (created : datetime)
    (Hurl : py_getitem item (JStr "repository_url") = Ok (JStr in_url))
    (Hshort : _get_shortname in_url = Ok shortname)
    (Hcreated : py_getitem item (JStr "created_at") = Ok created_str)
    (Hparse : strptime created_str = Ok created)
    (Hbefore : datetime_ltb created (oct3 E) = true) :
  loop_body E jsonresp item outlist
  = ([], Ok (outlist ++ [new_itemdict shortname created])%list)
  /\ http_calls (trace (loop_body E jsonresp item outlist)) = O
  /\ qualify E jsonresp item = true.
Proof.
  assert (Hrun : forall out,
    loop_body E jsonresp item out
    = ([], Ok (out ++ [new_itemdict shortname created])%list)).
  { intros out. unfold loop_body.
    rewrite Hurl, bind_lift_ok, Hshort, bind_lift_ok.
    rewrite Hcreated, bind_lift_ok, Hparse, bind_lift_ok.
    rewrite Hbefore. reflexivity. }
  split; [apply Hrun |].
  split.
  - rewrite Hrun. reflexivity.
  - unfold qualify. rewrite Hrun. reflexivity.
Qed.

Lemma grace_period_admits_without_lookup_witness :
  http_calls (trace (loop_body (Sample.network (Sample.search [Sample.early]) Sample.not_found)
                               (Sample.search [Sample.early]) Sample.early [])) = O
  /\ qualify (Sample.network (Sample.search [Sample.early]) Sample.not_found)
             (Sample.search [Sample.early]) Sample.early = true.
Proof.
  refine (proj2 (grace_period_admits_without_lookup
           (Sample.network (Sample.search [Sample.early]) Sample.not_found)
           (Sample.search [Sample.early]) Sample.early []
           "https://api.github.com/repos/python-discord/seasonalbot"
           "python-discord/seasonalbot"
           (JStr "2020-10-02T23:59:59Z")
           {| year := 2020; month := 10; day := 2; hour := 23; minute := 59; second := 59 |}
           _ _ _ _ _));
    vm_compute; reflexivity.
Defined.

(** ** After the cut-off *)

Section PostCutoff.
Variables (E : env) (jsonresp item : json).
Variables (in_url shortname : string) (created_str : json) (created : datetime).
Hypothesis Hurl : py_getitem item (JStr "repository_url") = Ok (JStr in_url).
Hypothesis Hshort : _get_shortname in_url = Ok shortname.
Hypothesis Hcreated : py_getitem item (JStr "created_at") = Ok created_str.
Hypothesis Hparse : strptime created_str = Ok created.
Hypothesis Hafter : datetime_ltb created (oct3 E) = false.

(** The iteration, once the item is known to be past the grace period:
    what is left is the request for the topics and the test. *)
Lemma loop_body_post_cutoff (outlist : list itemdict) :
  loop_body E jsonresp item outlist
  = (jsonresp2 <- session_get E (topics_query_url shortname) GITHUB_TOPICS_ACCEPT_HEADER ;;
     has_names <- lift (py_in_keys "names" jsonresp2) ;;
     (if negb has_names then
        message <- lift (py_getitem jsonresp2 (JStr "message")) ;;
        text <- lift (py_str_add ("Error fetching topics for " ++ shortname ++ ": ") message) ;;
        logging ERROR text
      else ret tt) ;;;
     names <- lift (py_getitem jsonresp2 (JStr "names")) ;;
     in_topics <- lift (py_contains "hacktoberfest" names) ;;
     admit_it <- (if in_topics then ret true
                  else labels <- lift (py_getitem jsonresp (JStr "labels")) ;;
                       lift (py_contains "hacktoberfest-accpeted" labels)) ;;
     if admit_it then ret (outlist ++ [new_itemdict shortname created])%list else ret outlist).
Proof.
  unfold loop_body.
  rewrite Hurl, bind_lift_ok, Hshort, bind_lift_ok.
  rewrite Hcreated, bind_lift_ok, Hparse, bind_lift_ok.
  rewrite Hafter. reflexivity.
Qed.

(** A repository that carries the topic: the item is appended, after
    one request. *)
Lemma post_cutoff_tagged_admitted (outlist : list itemdict)
    (kv : list (string * json)) (names : list json) :
  http_get E (topics_query_url shortname) GITHUB_TOPICS_ACCEPT_HEADER = JObj kv ->
  assoc "names" kv = Some (JArr names) ->
  existsb (fun v => py_eq_str v "hacktoberfest") names = true ->
  loop_body E jsonresp item outlist
  = ([HttpGet (topics_query_url shortname) GITHUB_TOPICS_ACCEPT_HEADER],
     Ok (outlist ++ [new_itemdict shortname created])%list).
Proof.
  intros Hget Hnames Htag. rewrite loop_body_post_cutoff.
  unfold session_get, emit, ret, bind, lift, logging. rewrite Hget. simpl.
  unfold has_key. rewrite Hnames. simpl. rewrite Htag. reflexivity.
Qed.

(** C2. A pull request created at or after the cut-off whose repository
    has a topics list without "hacktoberfest" is not rejected: the test
    goes on to [jsonresp["labels"]], a key of the search response, and
    for a search response without that key the iteration raises
    [KeyError]. *)
Theorem post_cutoff_untagged_raises (outlist : list itemdict)
    (kv kvs : list (string * json)) (names : list json)
    (Hget : http_get E (topics_query_url shortname) GITHUB_TOPICS_ACCEPT_HEADER = JObj kv)
    (Hnames : assoc "names" kv = Some (JArr names))
    (Huntagged : existsb (fun v => py_eq_str v "hacktoberfest") names = false)
    (Hresp : jsonresp = JObj kvs)
    (Hlabels : assoc "labels" kvs = None) :
  outcome (loop_body E jsonresp item outlist) = Raise (KeyError (JStr "labels")).
Proof.
  rewrite loop_body_post_cutoff.
  unfold session_get, emit, ret, bind, lift, logging. rewrite Hget. simpl.
  unfold has_key. rewrite Hnames. simpl. rewrite Huntagged.
  rewrite Hresp. simpl. rewrite Hlabels. reflexivity.
Qed.

Lemma loop_body_topics_error (outlist : list itemdict) (kv : list (string * json)) :
  http_get E (topics_query_url shortname) GITHUB_TOPICS_ACCEPT_HEADER = JObj kv ->
  assoc "names" kv = None ->
  outcome (loop_body E jsonresp item outlist) = Raise (topics_error_exn kv).
Proof.
  intros Hget Hnames. rewrite loop_body_post_cutoff.
  unfold session_get, emit, ret, bind, lift, logging, topics_error_exn.
  rewrite Hget. simpl. unfold has_key. rewrite Hnames. simpl.
  destruct (assoc "message" kv) as [[| b | n | s | l | o] |]; simpl;
    try rewrite Hnames; reflexivity.
Qed.

(** C3. When the topics response of a pull request past the cut-off is
    an error body, a dict without "names", the loop does not go on to the
    next items: the error is logged when the body has a string under
    "message", and the run of the loop over this item and any further
    items ends in an exception, so no list is returned. *)
Theorem topics_error_aborts_loop (rest : list json) (outlist : list itemdict)
    (kv : list (string * json))
    (Hget : http_get E (topics_query_url shortname) GITHUB_TOPICS_ACCEPT_HEADER = JObj kv)
    (Hnames : assoc "names" kv = None) :
  outcome (for_items E jsonresp (item :: rest) outlist) = Raise (topics_error_exn kv).
Proof.
  simpl. apply outcome_bind_raise. now apply loop_body_topics_error.
Qed.

End PostCutoff.

Lemma post_cutoff_untagged_raises_witness :
  outcome (loop_body (Sample.network (Sample.search [Sample.late]) (Sample.topics ["python"]))
                     (Sample.search [Sample.late]) Sample.late [])
  = Raise (KeyError (JStr "labels")).
Proof.
  refine (post_cutoff_untagged_raises
            (Sample.network (Sample.search [Sample.late]) (Sample.topics ["python"]))
            (Sample.search [Sample.late]) Sample.late
            "https://api.github.com/repos/octocat/hello-world" "octocat/hello-world"
            (JStr "2020-10-03T00:00:00Z")
            {| year := 2020; month := 10; day := 3; hour := 0; minute := 0; second := 0 |}
            _ _ _ _ _ []
            [("names", JArr [JStr "python"])]
            [("total_count", JNum 1); ("incomplete_results", JBool false);
             ("items", JArr [Sample.late])]
            [JStr "python"] _ _ _ _ _);
    vm_compute; reflexivity.
Defined.

(** The whole query on that response: the search and the topics request
    are made, then the exception leaves [get_october_prs]. *)
Example untagged_query_raises :
  get_october_prs (Sample.network (Sample.search [Sample.late]) (Sample.topics []))
                  "octocat"
  = ([Log INFO "Generating Hacktoberfest PR query for GitHub user: 'octocat'" [];
      Log DEBUG ("GitHub query URL generated: "
                 ++ query_url (Sample.network JNull JNull) "octocat") [];
      HttpGet (query_url (Sample.network JNull JNull) "octocat")
              [("User-Agent", "Python Discord Hacktoberbot")];
      HttpGet "https://api.github.com/repos/octocat/hello-world/topics"
              GITHUB_TOPICS_ACCEPT_HEADER],
     Raise (KeyError (JStr "labels"))).
Proof. vm_compute. reflexivity. Qed.

Lemma topics_error_aborts_loop_witness :
  outcome (for_items (Sample.network (Sample.search [Sample.late; Sample.early]) Sample.not_found)
                     (Sample.search [Sample.late; Sample.early])
                     [Sample.late; Sample.early] [])
  = Raise (KeyError (JStr "names")).
Proof.
  refine (topics_error_aborts_loop
            (Sample.network (Sample.search [Sample.late; Sample.early]) Sample.not_found)
            (Sample.search [Sample.late; Sample.early]) Sample.late
            "https://api.github.com/repos/octocat/hello-world" "octocat/hello-world"
            (JStr "2020-10-03T00:00:00Z")
            {| year := 2020; month := 10; day := 3; hour := 0; minute := 0; second := 0 |}
            _ _ _ _ _ [Sample.early] []
            [("message", JStr "Not Found");
             ("documentation_url", JStr "https://docs.github.com/rest")]
            _ _);
    vm_compute; reflexivity.
Defined.

(** The whole query on that response: the error is logged and the query
    raises, although the second item is within the grace period. *)
Example topics_error_query_raises :
  outcome (get_october_prs
             (Sample.network (Sample.search [Sample.late; Sample.early]) Sample.not_found)
             "octocat")
  = Raise (KeyError (JStr "names"))
  /\ logged ERROR (trace (get_october_prs
             (Sample.network (Sample.search [Sample.late; Sample.early]) Sample.not_found)
             "octocat"))
     = ["Error fetching topics for octocat/hello-world: Not Found"].
Proof. split; vm_compute; reflexivity. Qed.

(** ** The outcome of the search *)

Lemma outcome_bind {A B : Type} (m : M A) (f : A -> M B) :
  outcome (bind m f) = rbind (outcome m) (fun a => outcome (f a)).
Proof.
  destruct m as [t [a | e]]; simpl; [| reflexivity].
  destruct (f a). reflexivity.
Qed.

Lemma trace_bind {A B : Type} (m : M A) (f : A -> M B) :
  trace (bind m f)
  = match outcome m with
    | Ok a => (trace m ++ trace (f a))%list
    | Raise _ => trace m
    end.
Proof.
  destruct m as [t [a | e]]; simpl; [| reflexivity].
  destruct (f a). reflexivity.
Qed.

Lemma outcome_session_get (E : env) (url : string) (headers : list (string * string)) :
  outcome (session_get E url headers) = Ok (http_get E url headers).
Proof. reflexivity. Qed.

Ltac outcome_step :=
  rewrite outcome_bind;
  rewrite ?outcome_session_get;
  cbn [outcome rbind snd logging emit lift ret].

(** The result of [get_october_prs], the trace left aside. *)
Lemma get_october_prs_outcome (E : env) (github_username : string) :
  outcome (get_october_prs E github_username)
  = let jsonresp := search_response E github_username in
    rbind (py_in_keys "message" jsonresp) (fun has_message =>
    if has_message then
      rbind (py_getitem jsonresp (JStr "errors")) (fun errors =>
      rbind (py_getitem errors (JNum 0)) (fun error0 =>
      rbind (py_getitem error0 (JStr "message")) (fun _ => Ok PrsFalse)))
    else
      rbind (py_getitem jsonresp (JStr "total_count")) (fun total_count =>
      if py_eq_zero total_count then Ok PrsNone
      else
        rbind (py_getitem jsonresp (JStr "items")) (fun items_v =>
        rbind (py_iter items_v) (fun items =>
        rbind (outcome (for_items E jsonresp items [])) (fun outlist =>
        Ok (PrsList outlist)))))).
Proof.
  unfold get_october_prs. do 4 outcome_step.
  change (http_get E (query_url E github_username) (REQUEST_HEADERS E))
    with (search_response E github_username).
  set (jsonresp := search_response E github_username).
  destruct (py_in_keys "message" jsonresp) as [[|] | e]; cbn [rbind]; [| | reflexivity].
  - outcome_step.
    destruct (py_getitem jsonresp (JStr "errors")) as [errors | e]; cbn [rbind]; [| reflexivity].
    outcome_step.
    destruct (py_getitem errors (JNum 0)) as [error0 | e]; cbn [rbind]; [| reflexivity].
    outcome_step.
    destruct (py_getitem error0 (JStr "message")) as [api_message | e]; cbn [rbind];
      [| reflexivity].
    destruct (py_eq_str api_message GITHUB_NONEXISTENT_USER_MESSAGE); reflexivity.
  - outcome_step.
    destruct (py_getitem jsonresp (JStr "total_count")) as [total_count | e]; cbn [rbind];
      [| reflexivity].
    destruct (py_eq_zero total_count); [reflexivity |].
    outcome_step.
    destruct (py_getitem jsonresp (JStr "items")) as [items_v | e]; cbn [rbind];
      [| reflexivity].
    outcome_step.
    destruct (py_iter items_v) as [items | e]; cbn [rbind]; [| reflexivity].
    outcome_step.
    destruct (outcome (for_items E jsonresp items [])); reflexivity.
Qed.

(** C10. When the search response has the key "message", the function
    reads [jsonresp["errors"][0]["message"]] before it returns: a response
    with "message" and no "errors" makes it raise [KeyError], one with an
    empty "errors" list [IndexError], and [False] is not returned. *)
Theorem search_error_without_errors_raises
    (E : env) (github_username : string) (kv : list (string * json))
    (Hresp : search_response E github_username = JObj kv)
    (Hmessage : has_key "message" kv = true)
    (Herrors : assoc "errors" kv = None \/ assoc "errors" kv = Some (JArr [])) :
  outcome (get_october_prs E github_username)
  = Raise (match assoc "errors" kv with
           | None => KeyError (JStr "errors")
           | Some _ => IndexError
           end).
Proof.
  rewrite get_october_prs_outcome. cbv zeta. rewrite Hresp.
  cbn [py_in_keys rbind]. rewrite Hmessage. cbn [py_getitem].
  destruct Herrors as [H | H]; rewrite H; reflexivity.
Qed.

Lemma search_error_without_errors_raises_witness :
  outcome (get_october_prs (Sample.network Sample.rate_limited Sample.not_found) "octocat")
  = Raise (KeyError (JStr "errors")).
Proof.
  refine (search_error_without_errors_raises
            (Sample.network Sample.rate_limited Sample.not_found) "octocat"
            [("message", JStr "API rate limit exceeded for 203.0.113.7.");
             ("documentation_url",
              JStr "https://docs.github.com/rest/overview/resources-in-the-rest-api#rate-limiting")]
            _ _ _);
    [vm_compute; reflexivity | vm_compute; reflexivity | left; vm_compute; reflexivity].
Defined.

Example empty_errors_raises :
  outcome (get_october_prs
             (Sample.network (JObj [("message", JStr "Bad credentials"); ("errors", JArr [])])
                             Sample.not_found)
             "octocat")
  = Raise IndexError.
Proof. vm_compute. reflexivity. Qed.

(** ** What the caller is told *)

Lemma sent_app (t t' : list event) : sent (t ++ t') = (sent t ++ sent t')%list.
Proof.
  induction t as [| [url h | lvl msg args | content embed] t IH]; simpl;
    rewrite ?IH; reflexivity.
Qed.

Lemma silent_bind {A B : Type} (m : M A) (f : A -> M B) :
  silent m -> (forall a, silent (f a)) -> silent (bind m f).
Proof.
  unfold silent. intros Hm Hf. rewrite trace_bind.
  destruct (outcome m) as [a | e]; [| exact Hm].
  rewrite sent_app, Hm, Hf. reflexivity.
Qed.

Lemma silent_lift {A : Type} (r : result A) : silent (lift r).
Proof. reflexivity. Qed.

Lemma silent_ret {A : Type} (a : A) : silent (ret a).
Proof. reflexivity. Qed.

Lemma silent_log (lvl : level) (msg : string) (args : list json) :
  silent (emit (Log lvl msg args)).
Proof. reflexivity. Qed.

Lemma silent_session_get (E : env) (url : string) (headers : list (string * string)) :
  silent (session_get E url headers).
Proof. reflexivity. Qed.

Ltac silence :=
  repeat first
    [ apply silent_lift | apply silent_ret | apply silent_log
    | apply silent_session_get
    | apply silent_bind; [| intros ?]
    | match goal with |- silent (if ?c then _ else _) => destruct c end ].

Lemma silent_loop_body (E : env) (jsonresp item : json) (outlist : list itemdict) :
  silent (loop_body E jsonresp item outlist).
Proof. unfold loop_body, logging. silence. Qed.

Lemma silent_for_items (E : env) (jsonresp : json) (items : list json) :
  forall outlist, silent (for_items E jsonresp items outlist).
Proof.
  induction items as [| item items IH]; intros outlist; simpl.
  - apply silent_ret.
  - apply silent_bind; [apply silent_loop_body | intros a; apply IH].
Qed.

Lemma silent_get_october_prs (E : env) (github_username : string) :
  silent (get_october_prs E github_username).
Proof.
  unfold get_october_prs, logging.
  repeat first [ apply silent_for_items | progress silence ].
Qed.

(** Every result that is not a non-empty list gets the same answer. *)
Lemma get_stats_falsy (E : env) (github_username : string) (p : prs) :
  outcome (get_october_prs E github_username) = Ok p ->
  truthy p = false ->
  sent (trace (get_stats E github_username))
  = [(no_contributions_message github_username, None)].
Proof.
  intros Hp Hfalsy. unfold get_stats.
  rewrite trace_bind, Hp, sent_app, silent_get_october_prs, Hfalsy.
  reflexivity.
Qed.

(** C4, as the code has it.  When the search response is an error body
    whose [errors[0]["message"]] can be read, [get_october_prs] returns
    [False] whether or not that message is the one of a non-existent user;
    the two cases differ in the last log record only: a DEBUG record that
    no user of that name was found, or an ERROR record with the message of
    the API.  [False] is not the [None] of a search without results, but
    [get_stats] tests the truth value only: for [False], [None] and the
    empty list it posts the same message that nothing was found. *)
Theorem user_not_found_reported_as_failure
    (E : env) (github_username : string) (kv : list (string * json))
    (errors error0 api_message : json)
    (Hresp : search_response E github_username = JObj kv)
    (Hmessage : has_key "message" kv = true)
    (Herrors : assoc "errors" kv = Some errors)
    (Herror0 : py_getitem errors (JNum 0) = Ok error0)
    (Hapi : py_getitem error0 (JStr "message") = Ok api_message) :
  get_october_prs E github_username
  = ([Log INFO ("Generating Hacktoberfest PR query for GitHub user: '"
                ++ github_username ++ "'") [];
      Log DEBUG ("GitHub query URL generated: " ++ query_url E github_username) [];
      HttpGet (query_url E github_username) (REQUEST_HEADERS E);
      if py_eq_str api_message GITHUB_NONEXISTENT_USER_MESSAGE
      then Log DEBUG ("No GitHub user found named '" ++ github_username ++ "'") []
      else Log ERROR ("GitHub API request for '" ++ github_username
                      ++ "' failed with message: " ++ py_str api_message) []],
     Ok PrsFalse)
  /\ outcome (get_october_prs E github_username) = Ok PrsFalse
  /\ PrsFalse <> PrsNone
  /\ logged ERROR (trace (get_october_prs E github_username))
     = (if py_eq_str api_message GITHUB_NONEXISTENT_USER_MESSAGE then []
        else ["GitHub API request for '" ++ github_username
              ++ "' failed with message: " ++ py_str api_message])
  /\ logged DEBUG (trace (get_october_prs E github_username))
     = ("GitHub query URL generated: " ++ query_url E github_username)
       :: (if py_eq_str api_message GITHUB_NONEXISTENT_USER_MESSAGE
           then ["No GitHub user found named '" ++ github_username ++ "'"]
           else [])
  /\ sent (trace (get_stats E github_username))
     = [(no_contributions_message github_username, None)]
  /\ (forall (E' : env) (github_username' : string) (p : prs),
        outcome (get_october_prs E' github_username') = Ok p ->
        truthy p = false ->
        sent (trace (get_stats E' github_username'))
        = [(no_contributions_message github_username', None)])
  /\ truthy PrsFalse = false /\ truthy PrsNone = false /\ truthy (PrsList []) = false.
Proof.
  assert (Hwhole :
    get_october_prs E github_username
    = ([Log INFO ("Generating Hacktoberfest PR query for GitHub user: '"
                  ++ github_username ++ "'") [];
        Log DEBUG ("GitHub query URL generated: " ++ query_url E github_username) [];
        HttpGet (query_url E github_username) (REQUEST_HEADERS E);
        if py_eq_str api_message GITHUB_NONEXISTENT_USER_MESSAGE
        then Log DEBUG ("No GitHub user found named '" ++ github_username ++ "'") []
        else Log ERROR ("GitHub API request for '" ++ github_username
                        ++ "' failed with message: " ++ py_str api_message) []],
       Ok PrsFalse)).
  { unfold get_october_prs.
    cbn [bind logging emit session_get lift ret fst snd app].
    change (http_get E (query_url E github_username) (REQUEST_HEADERS E))
      with (search_response E github_username).
    rewrite Hresp. cbn [py_in_keys]. rewrite Hmessage. cbn [py_getitem].
    rewrite Herrors, Herror0, Hapi.
    destruct (py_eq_str api_message GITHUB_NONEXISTENT_USER_MESSAGE); reflexivity. }
  assert (Hout : outcome (get_october_prs E github_username) = Ok PrsFalse).
  { rewrite Hwhole. reflexivity. }
  split; [exact Hwhole |].
  split; [exact Hout |].
  split; [discriminate |].
  split; [rewrite Hwhole;
          destruct (py_eq_str api_message GITHUB_NONEXISTENT_USER_MESSAGE); reflexivity |].
  split; [rewrite Hwhole;
          destruct (py_eq_str api_message GITHUB_NONEXISTENT_USER_MESSAGE); reflexivity |].
  split; [apply (get_stats_falsy E github_username PrsFalse Hout); reflexivity |].
  split; [intros E' u' p Hp Hfalsy; exact (get_stats_falsy E' u' p Hp Hfalsy) |].
  repeat split.
Qed.

Lemma user_not_found_reported_as_failure_witness :
  outcome (get_october_prs (Sample.network Sample.no_such_user Sample.not_found) "ghost")
  = Ok PrsFalse
  /\ logged ERROR (trace (get_october_prs
                            (Sample.network Sample.no_such_user Sample.not_found) "ghost"))
     = []
  /\ logged DEBUG (trace (get_october_prs
                            (Sample.network Sample.no_such_user Sample.not_found) "ghost"))
     = [("GitHub query URL generated: "
         ++ query_url (Sample.network Sample.no_such_user Sample.not_found) "ghost");
        "No GitHub user found named 'ghost'"]
  /\ sent (trace (get_stats (Sample.network Sample.no_such_user Sample.not_found) "ghost"))
     = [(no_contributions_message "ghost", None)].
Proof.
  unshelve epose proof
    (user_not_found_reported_as_failure
       (Sample.network Sample.no_such_user Sample.not_found) "ghost"
       [("message", JStr "Validation Failed");
        ("errors", JArr [JObj [("message", JStr GITHUB_NONEXISTENT_USER_MESSAGE);
                               ("resource", JStr "Search");
                               ("field", JStr "q");
                               ("code", JStr "invalid")]]);
        ("documentation_url", JStr "https://docs.github.com/v3/search/")]
       (JArr [JObj [("message", JStr GITHUB_NONEXISTENT_USER_MESSAGE);
                    ("resource", JStr "Search");
                    ("field", JStr "q");
                    ("code", JStr "invalid")]])
       (JObj [("message", JStr GITHUB_NONEXISTENT_USER_MESSAGE);
              ("resource", JStr "Search");
              ("field", JStr "q");
              ("code", JStr "invalid")])
       (JStr GITHUB_NONEXISTENT_USER_MESSAGE)
       _ _ _ _ _) as H; try (vm_compute; reflexivity).
  destruct H as (_ & Hout & _ & Herr & Hdbg & Hsent & _).
  split; [exact Hout | split; [exact Herr | split; [exact Hdbg | exact Hsent]]].
Defined.

(** The record of another failure carries the message of the API. *)
Example other_failure_logged :
  logged ERROR (trace (get_october_prs
                         (Sample.network Sample.other_failure Sample.not_found) "ghost"))
  = ["GitHub API request for 'ghost' failed with message: "
     ++ "The search is longer than 256 characters."]
  /\ logged DEBUG (trace (get_october_prs
                            (Sample.network Sample.other_failure Sample.not_found) "ghost"))
     = ["GitHub query URL generated: "
        ++ query_url (Sample.network Sample.other_failure Sample.not_found) "ghost"].
Proof. split; vm_compute; reflexivity. Qed.

(** C4, as the claim has it, fails: a non-existent user and another failed
    search give the same result, and the channel gets the same message for a
    non-existent user as for a user without any pull request. *)
Lemma user_not_found_indistinct :
  outcome (get_october_prs (Sample.network Sample.no_such_user Sample.not_found) "ghost")
  = outcome (get_october_prs (Sample.network Sample.other_failure Sample.not_found) "ghost")
  /\ sent (trace (get_stats (Sample.network Sample.no_such_user Sample.not_found) "ghost"))
     = sent (trace (get_stats (Sample.network Sample.no_results Sample.not_found) "ghost")).
Proof. split; vm_compute; reflexivity. Qed.

(** ** The number of pull requests *)

Lemma appends_bind {A : Type} (m : M A) (f : A -> list itemdict -> M (list itemdict)) :
  (forall a, appends (f a)) -> appends (fun outlist => bind m (fun a => f a outlist)).
Proof.
  intros H. destruct m as [t [a | e]].
  - destruct (H a) as (t' & d & Hf). exists (t ++ t')%list, d.
    intros outlist. simpl. rewrite Hf. reflexivity.
  - exists t, (Raise e). reflexivity.
Qed.

Lemma appends_ret_same : appends (fun outlist => ret outlist).
Proof. exists [], (Ok None). reflexivity. Qed.

Lemma appends_ret_app (x : itemdict) : appends (fun outlist => ret (outlist ++ [x])%list).
Proof. exists [], (Ok (Some x)). reflexivity. Qed.

Lemma appends_if (c : bool) (f g : list itemdict -> M (list itemdict)) :
  appends f -> appends g -> appends (fun outlist => if c then f outlist else g outlist).
Proof. destruct c; auto. Qed.

(** An iteration leaves the list as it is or appends one dict to it, or
    raises; which of these, and the trace, do not depend on the list. *)
Lemma loop_body_appends (E : env) (jsonresp item : json) :
  appends (loop_body E jsonresp item).
Proof.
  unfold loop_body.
  repeat first
    [ apply appends_ret_same | apply appends_ret_app
    | apply appends_if
    | apply appends_bind; intros ? ].
Qed.

Lemma for_items_length (E : env) (jsonresp : json) (items : list json) :
  forall outlist outlist',
    outcome (for_items E jsonresp items outlist) = Ok outlist' ->
    List.length outlist'
    = (List.length outlist + List.length (filter (qualify E jsonresp) items))%nat.
Proof.
  induction items as [| item items IH]; intros outlist outlist' Hrun; simpl in *.
  - injection Hrun as <-. lia.
  - destruct (loop_body_appends E jsonresp item) as (t & d & Hbody).
    rewrite outcome_bind, (Hbody outlist) in Hrun.
    assert (Hq : qualify E jsonresp item
                 = match d with Ok (Some _) => true | _ => false end).
    { unfold qualify. rewrite (Hbody []). destruct d as [[x |] | e]; reflexivity. }
    rewrite Hq.
    destruct d as [[x |] | e]; simpl in *.
    + apply IH in Hrun. rewrite Hrun, length_app. simpl. lia.
    + apply IH in Hrun. rewrite Hrun. lia.
    + discriminate.
Qed.

(** C6. When [get_october_prs] returns a list, the [n_prs] of its summary
    is the number of items of the search response that the loop admitted,
    which is the length of the list; the summary of the empty list has
    [n_prs = 0]. *)
Theorem n_prs_counts_admitted
    (E : env) (github_username : string) (outlist : list itemdict)
    (Hrun : outcome (get_october_prs E github_username) = Ok (PrsList outlist)) :
  n_prs (_summarize_prs outlist)
  = Z.of_nat (List.length (filter (qualify E (search_response E github_username))
                                  (search_items E github_username)))
  /\ n_prs (_summarize_prs outlist) = Z.of_nat (List.length outlist)
  /\ n_prs (_summarize_prs []) = 0.
Proof.
  split; [| split; reflexivity].
  rewrite get_october_prs_outcome in Hrun. cbv zeta in Hrun.
  unfold search_items. set (jsonresp := search_response E github_username) in *.
  destruct (py_in_keys "message" jsonresp) as [[|] | e]; cbn [rbind] in Hrun;
    [| | discriminate].
  - destruct (py_getitem jsonresp (JStr "errors")) as [errors | e]; cbn [rbind] in Hrun;
      [| discriminate].
    destruct (py_getitem errors (JNum 0)) as [error0 | e]; cbn [rbind] in Hrun;
      [| discriminate].
    destruct (py_getitem error0 (JStr "message")); discriminate.
  - destruct (py_getitem jsonresp (JStr "total_count")) as [total_count | e];
      cbn [rbind] in Hrun; [| discriminate].
    destruct (py_eq_zero total_count); [discriminate |].
    destruct (py_getitem jsonresp (JStr "items")) as [items_v | e]; cbn [rbind] in *;
      [| discriminate].
    destruct (py_iter items_v) as [items | e]; cbn [rbind] in Hrun; [| discriminate].
    destruct (outcome (for_items E jsonresp items [])) as [out | e] eqn:Hloop;
      cbn [rbind] in Hrun; [| discriminate].
    injection Hrun as <-.
    apply for_items_length in Hloop. simpl. rewrite Hloop. reflexivity.
Qed.

Lemma n_prs_counts_admitted_witness :
  n_prs (_summarize_prs
           [new_itemdict "python-discord/seasonalbot"
              {| year := 2020; month := 10; day := 2; hour := 23; minute := 59; second := 59 |};
            new_itemdict "octocat/hello-world"
              {| year := 2020; month := 10; day := 3; hour := 0; minute := 0; second := 0 |}])
  = 2.
Proof.
  refine (proj1 (n_prs_counts_admitted
                   (Sample.network (Sample.search [Sample.early; Sample.late])
                                   (Sample.topics ["python"; "hacktoberfest"]))
                   "octocat" _ _)).
  vm_compute. reflexivity.
Defined.

(** ** The T-shirt message *)

Lemma string_length_append (a b : string) :
  String.length (a ++ b) = (String.length a + String.length b)%nat.
Proof. induction a as [| c a IH]; simpl; [| rewrite IH]; reflexivity. Qed.

Lemma string_append_inv_head (p a b : string) : p ++ a = p ++ b -> a = b.
Proof.
  induction p as [| c p IH]; simpl; intros H; [exact H |].
  injection H as H. auto.
Qed.

Lemma str_of_int_nonempty (n : Z) : (0 < String.length (str_of_int n))%nat.
Proof.
  unfold str_of_int, NilZero.string_of_int, NilZero.string_of_uint.
  destruct (Z.to_int n) as [d | d]; destruct d; simpl; lia.
Qed.

Lemma earned_not_one_away (u : string) : earned_message u <> one_away_message u.
Proof.
  unfold earned_message, one_away_message. intros H.
  do 2 apply string_append_inv_head in H. discriminate.
Qed.

Lemma earned_not_away (u : string) (k : Z) : earned_message u <> away_message u k.
Proof.
  unfold earned_message, away_message. intros H.
  do 2 apply string_append_inv_head in H. discriminate.
Qed.

Lemma one_away_not_away (u : string) (k : Z) : one_away_message u <> away_message u k.
Proof.
  unfold one_away_message, away_message. intros H.
  do 2 apply string_append_inv_head in H.
  apply (string_append_inv_head " is " "1 PR away from a T-shirt or a tree!**") in H.
  apply (f_equal String.length) in H.
  rewrite string_length_append in H.
  pose proof (str_of_int_nonempty k). simpl in H. lia.
Qed.

Lemma shirtstr_cases (u : string) (n : Z) :
  (PRS_FOR_SHIRT <= n /\ shirtstr u n = earned_message u)
  \/ (n = PRS_FOR_SHIRT - 1 /\ shirtstr u n = one_away_message u)
  \/ (n < PRS_FOR_SHIRT - 1 /\ shirtstr u n = away_message u (PRS_FOR_SHIRT - n)).
Proof.
  unfold shirtstr.
  destruct (Z.leb_spec PRS_FOR_SHIRT n) as [H | H]; [left; auto |].
  destruct (Z.eqb_spec n (PRS_FOR_SHIRT - 1)) as [H' | H'];
    [right; left; auto | right; right].
  split; [lia | reflexivity].
Qed.

(** C8. The message depends on the number of PRs only, with threshold 4:
    it is the "earned" message exactly from 4 on, the "1 PR away" message
    exactly at 3, and below 3 the "N PRs away" message with N = 4 - n;
    so 4 and 5 give "earned" and 0 gives "4 PRs away". *)
Theorem shirtstr_classifies (github_username : string) (n : Z) :
  PRS_FOR_SHIRT = 4
  /\ (shirtstr github_username n = earned_message github_username <-> 4 <= n)
  /\ (shirtstr github_username n = one_away_message github_username <-> n = 3)
  /\ (shirtstr github_username n = away_message github_username (4 - n) <-> n < 3)
  /\ shirtstr github_username 4 = earned_message github_username
  /\ shirtstr github_username 5 = earned_message github_username
  /\ shirtstr github_username 3 = one_away_message github_username
  /\ shirtstr github_username 0
     = "**" ++ github_username ++ " is 4 PRs away from a T-shirt or a tree!**".
Proof.
  pose proof (earned_not_one_away github_username) as D1.
  pose proof (earned_not_away github_username (4 - n)) as D2.
  pose proof (one_away_not_away github_username (4 - n)) as D3.
  change PRS_FOR_SHIRT with 4 in *.
  destruct (shirtstr_cases github_username n) as [[H E] | [[H E] | [H E]]];
    change PRS_FOR_SHIRT with 4 in *; rewrite E;
    repeat split; try reflexivity; try lia; intros; try congruence;
    exfalso; congruence.
Qed.

(** ** The short name of a repository *)

Lemma star_run {R : Type} (p : ascii -> bool) (k : string -> option R) (x : R)
    (run rest : string) :
  string_forallb p run = true ->
  stops p rest = true ->
  k rest = Some x ->
  star p (run ++ rest) k = Some x.
Proof.
  intros Hrun Hstop Hk. induction run as [| c run IH]; simpl in *.
  - destruct rest as [| c rest]; simpl in *; [exact Hk |].
    apply negb_true_iff in Hstop. rewrite Hstop. exact Hk.
  - apply andb_true_iff in Hrun as [Hc Hrun]. rewrite Hc, (IH Hrun). reflexivity.
Qed.

Lemma substring_prefix (a b : string) : String.substring 0 (String.length a) (a ++ b) = a.
Proof.
  induction a as [| c a IH]; simpl.
  - destruct b; reflexivity.
  - rewrite IH. reflexivity.
Qed.

Lemma consumed_append (a b : string) : consumed (a ++ b) b = a.
Proof.
  unfold consumed. rewrite string_length_append.
  replace (String.length a + String.length b - String.length b)%nat
    with (String.length a) by lia.
  apply substring_prefix.
Qed.

(** A match of [exp] at the start of a GitHub API URL of a repository:
    group 1 is the longest run of characters of the class after
    [/repos/]. *)
Lemma exp_matches_https (name rest : string) :
  name <> "" ->
  string_forallb shortname_char name = true ->
  stops shortname_char rest = true ->
  re_match exp ("https://api.github.com/repos/" ++ name ++ rest)
  = Some (rest, [(1%nat, name)]).
Proof.
  intros Hne Hname Hstop. unfold re_match, exp. cbn -[star consumed].
  destruct name as [| c name]; [congruence |].
  simpl in Hname. apply andb_true_iff in Hname as [Hc Hname].
  cbn -[star consumed]. rewrite Hc.
  rewrite (star_run shortname_char _
             (rest, [(1%nat, consumed (String c (name ++ rest)) rest)]) name rest
             Hname Hstop eq_refl).
  change (String c (name ++ rest)) with (String c name ++ rest).
  rewrite consumed_append. reflexivity.
Qed.

(** The first element of [findall] is group 1 of a match at the start. *)
Lemma findall_first (r : regex) (s s' : string) (g : groups) :
  re_match r s = Some (s', g) -> exists tl, findall r s = group 1 g :: tl.
Proof.
  intros H. unfold findall. cbn [findall_fuel]. rewrite H. eexists. reflexivity.
Qed.

Lemma findall_nil_iff (r : regex) (fuel : nat) :
  forall s, (String.length s < fuel)%nat ->
            (findall_fuel fuel r s = [] <-> no_match r s).
Proof.
  induction fuel as [| fuel IH]; intros s Hlen; [lia |].
  cbn [findall_fuel].
  destruct (re_match r s) as [[s' g] |] eqn:Hm.
  - split; [discriminate |]. intros H. specialize (H O). simpl in H. congruence.
  - destruct s as [| c t].
    + split; [| reflexivity]. intros _ [| n]; exact Hm.
    + simpl in Hlen. rewrite IH by lia. split.
      * intros H [| n]; [exact Hm | apply (H n)].
      * intros H n. apply (H (S n)).
Qed.

(** C9. On [https://api.github.com/repos/] followed by a non-empty run of
    characters of the class of the pattern (up to the end of the string or
    to a character outside the class), [_get_shortname] returns that run;
    on a string in which the pattern matches nowhere, and only on such a
    string, it raises [IndexError], as it does on a URL that is not one of
    a repository. *)
Theorem get_shortname_extracts_or_raises :
  (forall name rest : string,
      name <> "" ->
      string_forallb shortname_char name = true ->
      stops shortname_char rest = true ->
      _get_shortname ("https://api.github.com/repos/" ++ name ++ rest) = Ok name)
  /\ (forall in_url : string,
         no_match exp in_url <-> _get_shortname in_url = Raise IndexError)
  /\ _get_shortname "https://github.com/python-discord/seasonalbot" = Raise IndexError.
Proof.
  split; [| split].
  - intros name rest Hne Hname Hstop. unfold _get_shortname.
    destruct (findall_first _ _ _ _ (exp_matches_https name rest Hne Hname Hstop))
      as [tl Htl].
    rewrite Htl. reflexivity.
  - intros in_url. unfold _get_shortname, findall.
    rewrite <- (findall_nil_iff exp (S (String.length in_url)) in_url) by lia.
    destruct (findall_fuel (S (String.length in_url)) exp in_url);
      split; intros H; congruence.
  - vm_compute. reflexivity.
Qed.

Lemma get_shortname_extracts_or_raises_witness :
  _get_shortname ("https://api.github.com/repos/" ++ "python-discord/seasonalbot" ++ "?page=2")
  = Ok "python-discord/seasonalbot".
Proof.
  refine (proj1 get_shortname_extracts_or_raises
                "python-discord/seasonalbot" "?page=2" _ _ _);
    [discriminate | vm_compute; reflexivity | vm_compute; reflexivity].
Defined.

(** ** The counter of the repositories *)

Lemma Counter_snoc (l : list string) (x : string) :
  Counter (l ++ [x]) = counter_incr x (Counter l).
Proof. unfold Counter. rewrite fold_left_app. reflexivity. Qed.

Lemma map_bump_notin (x : string) (c : counter) :
  ~ In x (map fst c) -> map (bump x) c = c.
Proof.
  induction c as [| [k n] c IH]; simpl; intros H; [reflexivity |].
  unfold bump at 1. simpl.
  destruct (String.eqb_spec x k) as [-> | Hneq]; [tauto |].
  rewrite IH by tauto. reflexivity.
Qed.

Lemma counter_incr_in (x : string) (c : counter) :
  NoDup (map fst c) -> In x (map fst c) -> counter_incr x c = map (bump x) c.
Proof.
  induction c as [| [k n] c IH]; simpl; intros Hnd Hin; [tauto |].
  inversion Hnd as [| ? ? Hk Hnd']; subst.
  unfold bump at 1. simpl.
  destruct (String.eqb_spec x k) as [-> | Hneq].
  - rewrite map_bump_notin by exact Hk. reflexivity.
  - rewrite IH; [reflexivity | exact Hnd' | destruct Hin; [congruence | assumption]].
Qed.

Lemma counter_incr_notin (x : string) (c : counter) :
  ~ In x (map fst c) -> counter_incr x c = (c ++ [(x, 1)])%list.
Proof.
  induction c as [| [k n] c IH]; simpl; intros H; [reflexivity |].
  destruct (String.eqb_spec x k) as [-> | Hneq]; [tauto |].
  rewrite IH by tauto. reflexivity.
Qed.

Lemma map_fst_bump (x : string) (c : counter) : map fst (map (bump x) c) = map fst c.
Proof.
  rewrite map_map. apply map_ext. intros [k n]. unfold bump. simpl.
  destruct (String.eqb x k); reflexivity.
Qed.

Lemma first_index_lt (r : string) (l : list string) :
  In r l <-> (first_index r l < List.length l)%nat.
Proof.
  induction l as [| x l IH]; simpl; [split; [tauto | lia] |].
  destruct (String.eqb_spec r x) as [-> | Hneq].
  - split; [lia | auto].
  - rewrite <- Nat.succ_lt_mono, <- IH. split; [intros [H | H]; congruence || auto | auto].
Qed.

Lemma first_index_app_in (r : string) (l l' : list string) :
  In r l -> first_index r (l ++ l') = first_index r l.
Proof.
  induction l as [| x l IH]; simpl; [tauto |]. intros H.
  destruct (String.eqb_spec r x) as [-> | Hneq]; [reflexivity |].
  rewrite IH; [reflexivity | destruct H; congruence || auto].
Qed.

Lemma first_index_app_notin (r : string) (l : list string) :
  ~ In r l -> first_index r (l ++ [r]) = List.length l.
Proof.
  induction l as [| x l IH]; simpl; intros H.
  - rewrite String.eqb_refl. reflexivity.
  - destruct (String.eqb_spec r x) as [-> | Hneq]; [tauto |].
    rewrite IH by tauto. reflexivity.
Qed.

Lemma occurrences_snoc (k x : string) (l : list string) :
  occurrences k (l ++ [x]) = occurrences k l + (if String.eqb x k then 1 else 0).
Proof.
  unfold occurrences. rewrite count_occ_app. simpl.
  destruct (string_dec x k) as [-> | Hneq].
  - rewrite String.eqb_refl. lia.
  - apply String.eqb_neq in Hneq. rewrite Hneq. lia.
Qed.

Lemma occurrences_notin (k : string) (l : list string) :
  ~ In k l -> occurrences k l = 0.
Proof.
  intros H. unfold occurrences.
  apply (count_occ_not_In string_dec) in H. rewrite H. reflexivity.
Qed.

Lemma StronglySorted_snoc {A : Type} (R : A -> A -> Prop) (l : list A) (y : A) :
  StronglySorted R l -> Forall (fun a => R a y) l -> StronglySorted R (l ++ [y]).
Proof.
  induction 1 as [| a l Hl IH Ha]; simpl; intros Hy.
  - constructor; constructor.
  - inversion Hy; subst. constructor; [auto |].
    apply Forall_app. split; [exact Ha | constructor; auto].
Qed.

Lemma StronglySorted_weaken {A : Type} (R R' : A -> A -> Prop) (l : list A) :
  (forall a b, In a l -> In b l -> R a b -> R' a b) ->
  StronglySorted R l -> StronglySorted R' l.
Proof.
  intros HR H. induction H as [| a l Hl IH Ha]; constructor.
  - apply IH. intros; apply HR; simpl; auto.
  - rewrite Forall_forall in *. intros b Hb. apply HR; simpl; auto.
Qed.

Lemma counts_of_nil : counts_of [] [].
Proof.
  split; simpl; try constructor; tauto.
Qed.

Lemma counts_of_snoc (l : list string) (c : counter) (x : string) :
  counts_of l c -> counts_of (l ++ [x]) (counter_incr x c).
Proof.
  intros [Hnd Hkeys Hcounts Hord].
  destruct (in_dec string_dec x l) as [Hin | Hnotin].
  - (* a key that is there: its count goes up by one *)
    rewrite counter_incr_in by (auto; apply Hkeys; auto).
    split.
    + rewrite map_fst_bump. exact Hnd.
    + intros k. rewrite map_fst_bump, Hkeys, in_app_iff. simpl.
      split; [auto | intros [H | [<- | []]]; auto].
    + rewrite Forall_map. revert Hcounts. apply Forall_impl. intros [k n]. simpl.
      intros ->. rewrite occurrences_snoc. unfold bump. cbn [fst snd].
      destruct (String.eqb x k) eqn:Hxk; cbn [fst snd]; rewrite Hxk; lia.
    + rewrite map_fst_bump. revert Hord. apply StronglySorted_weaken.
      intros a b Ha Hb. unfold earlier.
      rewrite !first_index_app_in by (apply Hkeys; assumption). auto.
  - (* a new key: it goes to the end *)
    assert (Hnk : ~ In x (map fst c)) by (rewrite Hkeys; exact Hnotin).
    rewrite counter_incr_notin by exact Hnk.
    split.
    + rewrite map_app. simpl.
      apply Permutation_NoDup with (l := x :: map fst c).
      * apply Permutation_cons_append.
      * constructor; assumption.
    + intros k. rewrite map_app, !in_app_iff, Hkeys. simpl. tauto.
    + apply Forall_app. split.
      * revert Hcounts. rewrite !Forall_forall. intros H [k n] Hp.
        specialize (H _ Hp). cbn [fst snd] in *. rewrite H, occurrences_snoc.
        assert (In k l) by (apply Hkeys, in_map_iff; exists (k, n); auto).
        destruct (String.eqb_spec x k) as [-> | _]; [tauto | lia].
      * constructor; [| constructor]. simpl.
        rewrite occurrences_snoc, String.eqb_refl, occurrences_notin by exact Hnotin.
        reflexivity.
    + rewrite map_app. simpl. apply StronglySorted_snoc.
      * revert Hord. apply StronglySorted_weaken.
        intros a b Ha Hb. unfold earlier.
        rewrite !first_index_app_in by (apply Hkeys; assumption). auto.
      * rewrite Forall_forall. intros a Ha. unfold earlier.
        apply Hkeys in Ha.
        rewrite first_index_app_in, first_index_app_notin by assumption.
        apply first_index_lt. exact Ha.
Qed.

Lemma Counter_counts_of (l : list string) : counts_of l (Counter l).
Proof.
  induction l as [| x l IH] using rev_ind.
  - apply counts_of_nil.
  - rewrite Counter_snoc. apply counts_of_snoc. exact IH.
Qed.

(** ** The ranking *)

Lemma insert_desc_perm (x : string * Z) (l : counter) :
  Permutation (insert_desc x l) (x :: l).
Proof.
  induction l as [| y l IH]; simpl; [reflexivity |].
  destruct (snd y <=? snd x); [reflexivity |].
  rewrite IH. apply perm_swap.
Qed.

Lemma sorted_desc_perm (c : counter) : Permutation (sorted_desc c) c.
Proof.
  induction c as [| x c IH]; simpl; [reflexivity |].
  rewrite insert_desc_perm, IH. reflexivity.
Qed.

(** Stability of the insertion: an item that stood before all those of a
    ranked list is ranked before those of the same count. *)
Lemma insert_desc_ranked (repos : list string) (x : string * Z) (l : counter) :
  StronglySorted (ranks_before repos) l ->
  Forall (fun y => earlier repos (fst x) (fst y)) l ->
  StronglySorted (ranks_before repos) (insert_desc x l).
Proof.
  induction 1 as [| y l Hl IH Hy]; simpl; intros Hx.
  - constructor; constructor.
  - inversion Hx as [| ? ? Hxy Hxl]; subst.
    destruct (Z.leb_spec (snd y) (snd x)) as [Hle | Hgt].
    + constructor; [constructor; assumption |].
      constructor.
      * unfold ranks_before, earlier in *. lia.
      * rewrite Forall_forall in *. intros z Hz.
        specialize (Hy z Hz). specialize (Hxl z Hz).
        unfold ranks_before, earlier in *. lia.
    + constructor; [auto |].
      rewrite (insert_desc_perm x l). constructor; [| exact Hy].
      unfold ranks_before. lia.
Qed.

Lemma StronglySorted_map_fst (R : string -> string -> Prop) (c : counter) :
  StronglySorted R (map fst c) ->
  StronglySorted (fun a b => R (fst a) (fst b)) c.
Proof.
  induction c as [| x c IH]; simpl; intros H; [constructor |].
  inversion H as [| ? ? Hc Hx]; subst. constructor; [auto |].
  rewrite Forall_map in Hx. exact Hx.
Qed.

Lemma sorted_desc_ranked (repos : list string) (c : counter) :
  StronglySorted (earlier repos) (map fst c) ->
  StronglySorted (ranks_before repos) (sorted_desc c).
Proof.
  intros H. apply StronglySorted_map_fst in H.
  induction H as [| x c Hc IH Hx]; simpl; [constructor |].
  apply insert_desc_ranked; [exact IH |].
  rewrite (sorted_desc_perm c). exact Hx.
Qed.

Lemma in_firstn {A : Type} (a : A) (n : nat) (l : list A) :
  In a (firstn n l) -> In a l.
Proof.
  revert l. induction n as [| n IH]; intros [| x l]; simpl; try tauto.
  intros [H | H]; auto.
Qed.

Lemma StronglySorted_firstn {A : Type} (R : A -> A -> Prop) (n : nat) (l : list A) :
  StronglySorted R l -> StronglySorted R (firstn n l).
Proof.
  intros H. revert n. induction H as [| a l Hl IH Ha]; intros [| n]; simpl;
    try constructor; [apply IH |].
  rewrite Forall_forall in *. intros b Hb. apply Ha.
  exact (in_firstn _ _ _ Hb).
Qed.

(** The entries of [top5] are the largest counts: a repository that is
    left out has no more pull requests than any that is listed. *)
Lemma top5_largest (prs : list itemdict) (r : string) (p : string * Z) :
  let repos := map repo_shortname prs in
  In r repos ->
  ~ In r (map fst (top5 (_summarize_prs prs))) ->
  In p (top5 (_summarize_prs prs)) ->
  occurrences r repos <= snd p.
Proof.
  intros repos Hr Hout Hp. unfold _summarize_prs in *. cbn [top5] in *. fold repos in Hout, Hp.
  destruct (Counter_counts_of repos) as [Hnd Hkeys Hcounts Hord].
  pose proof (sorted_desc_ranked repos _ Hord) as Hsorted.
  unfold most_common in *.
  rewrite <- (firstn_skipn 5 (sorted_desc (Counter repos))) in Hsorted.
  apply Hkeys, in_map_iff in Hr as [[r' n] [Hfst Hin]]. simpl in Hfst. subst r'.
  assert (Hn : n = occurrences r repos).
  { rewrite Forall_forall in Hcounts. exact (Hcounts _ Hin). }
  apply (Permutation_in _ (Permutation_sym (sorted_desc_perm _))) in Hin.
  rewrite <- (firstn_skipn 5 (sorted_desc (Counter repos))) in Hin.
  apply in_app_or in Hin as [Hin | Hin].
  - exfalso. apply Hout, in_map_iff. exists (r, n). auto.
  - revert Hsorted Hp Hin. generalize (firstn 5 (sorted_desc (Counter repos))).
    generalize (skipn 5 (sorted_desc (Counter repos))).
    intros tl hd Hsorted Hp Hin. induction hd as [| q hd IH]; [destruct Hp |].
    simpl in Hsorted. apply StronglySorted_inv in Hsorted as [Hs Hq].
    destruct Hp as [-> | Hp]; [| auto].
    rewrite Forall_forall in Hq. specialize (Hq (r, n) (in_or_app _ _ _ (or_intror Hin))).
    unfold ranks_before in Hq. simpl in Hq. lia.
Qed.

(** ** The sum of the listed counts *)

Lemma sum_counts_incr (x : string) (c : counter) :
  sum_counts (counter_incr x c) = sum_counts c + 1.
Proof.
  induction c as [| [k n] c IH]; simpl; [reflexivity |].
  destruct (String.eqb x k); simpl; [| rewrite IH]; lia.
Qed.

Lemma sum_counts_Counter (l : list string) :
  sum_counts (Counter l) = Z.of_nat (List.length l).
Proof.
  induction l as [| x l IH] using rev_ind; [reflexivity |].
  rewrite Counter_snoc, sum_counts_incr, IH, length_app. simpl. lia.
Qed.

Lemma sum_counts_perm (c c' : counter) :
  Permutation c c' -> sum_counts c = sum_counts c'.
Proof.
  induction 1; simpl; lia.
Qed.

Lemma sum_counts_firstn (n : nat) (c : counter) :
  Forall (fun p => 0 <= snd p) c -> sum_counts (firstn n c) <= sum_counts c.
Proof.
  intros H. revert n. induction H as [| p c Hp Hc IH]; intros [| n]; simpl; try lia.
  - assert (0 <= sum_counts c); [| lia].
    clear IH. induction Hc; simpl; lia.
  - specialize (IH n). lia.
Qed.

Lemma Counter_length (l : list string) : List.length (Counter l) = distinct l.
Proof.
  destruct (Counter_counts_of l) as [Hnd Hkeys _ _].
  unfold distinct. rewrite <- (length_map fst).
  apply Permutation_length, NoDup_Permutation.
  - exact Hnd.
  - apply NoDup_nodup.
  - intros k. rewrite Hkeys, nodup_In. reflexivity.
Qed.

(** C7. The counts listed in [top5] add up to at most [n_prs], and to
    [n_prs] when the pull requests are in at most five repositories. *)
Theorem top5_sum_bounded (prs : list itemdict) :
  sum_counts (top5 (_summarize_prs prs)) <= n_prs (_summarize_prs prs)
  /\ ((distinct (map repo_shortname prs) <= 5)%nat ->
      sum_counts (top5 (_summarize_prs prs)) = n_prs (_summarize_prs prs)).
Proof.
  unfold _summarize_prs. cbn [top5 n_prs]. set (repos := map repo_shortname prs).
  assert (Htotal : sum_counts (sorted_desc (Counter repos)) = Z.of_nat (List.length prs)).
  { rewrite (sum_counts_perm _ _ (sorted_desc_perm _)), sum_counts_Counter.
    unfold repos. rewrite length_map. reflexivity. }
  unfold most_common. split.
  - rewrite <- Htotal. apply sum_counts_firstn.
    apply (Permutation_Forall (Permutation_sym (sorted_desc_perm _))).
    destruct (Counter_counts_of repos) as [_ _ Hcounts _].
    revert Hcounts. apply Forall_impl. intros p ->. unfold occurrences. lia.
  - intros Hfew. rewrite firstn_all2; [exact Htotal |].
    rewrite (Permutation_length (sorted_desc_perm _)), Counter_length. exact Hfew.
Qed.

Lemma top5_sum_bounded_witness :
  sum_counts (top5 (_summarize_prs (map (fun r => new_itemdict r (oct3 (Sample.network JNull JNull)))
                                        ["A"; "B"; "A"; "C"; "B"; "A"])))
  = 6.
Proof.
  refine (proj2 (top5_sum_bounded
                   (map (fun r => new_itemdict r (oct3 (Sample.network JNull JNull)))
                        ["A"; "B"; "A"; "C"; "B"; "A"])) _).
  vm_compute. lia.
Defined.

(** ** The ranking of [top5] *)

(** The entries of [top5] rank before the repositories that are left
    out: these have fewer pull requests, or as many and a later first
    occurrence. *)
Lemma top5_outranks (prs : list itemdict) (r : string) (p : string * Z) :
  In r (map repo_shortname prs) ->
  ~ In r (map fst (top5 (_summarize_prs prs))) ->
  In p (top5 (_summarize_prs prs)) ->
  ranks_before (map repo_shortname prs) p (r, occurrences r (map repo_shortname prs)).
Proof.
  intros Hr Hout Hp. unfold _summarize_prs in *. cbn [top5] in *.
  set (repos := map repo_shortname prs) in *.
  destruct (Counter_counts_of repos) as [Hnd Hkeys Hcounts Hord].
  pose proof (sorted_desc_ranked repos _ Hord) as Hsorted.
  unfold most_common in *.
  rewrite <- (firstn_skipn 5 (sorted_desc (Counter repos))) in Hsorted.
  apply Hkeys, in_map_iff in Hr as [[r' n] [Hfst Hin]]. simpl in Hfst. subst r'.
  assert (Hn : n = occurrences r repos).
  { rewrite Forall_forall in Hcounts. exact (Hcounts _ Hin). }
  apply (Permutation_in _ (Permutation_sym (sorted_desc_perm _))) in Hin.
  rewrite <- (firstn_skipn 5 (sorted_desc (Counter repos))) in Hin.
  apply in_app_or in Hin as [Hin | Hin].
  - exfalso. apply Hout, in_map_iff. exists (r, n). auto.
  - rewrite <- Hn. clear Hn.
    revert Hsorted Hp Hin. generalize (firstn 5 (sorted_desc (Counter repos))).
    generalize (skipn 5 (sorted_desc (Counter repos))).
    intros tl hd Hsorted Hp Hin. induction hd as [| q hd IH]; [destruct Hp |].
    simpl in Hsorted. apply StronglySorted_inv in Hsorted as [Hs Hq].
    destruct Hp as [-> | Hp]; [| auto].
    rewrite Forall_forall in Hq. exact (Hq (r, n) (in_or_app _ _ _ (or_intror Hin))).
Qed.

(** C5. The [top5] of a summary lists the repositories of the pull
    requests, each once and with the number of its pull requests, up to
    five of them: as many entries as there are distinct repositories, cut
    at five.  The entries are in the order of decreasing counts and, for
    equal counts, in the order of the first occurrences in the input; a
    repository that is left out comes after every entry in that order.  So
    pull requests in the repositories [A, B, A, C, B, A] give
    [(A,3), (B,2), (C,1)]. *)
Theorem top5_ranked (prs : list itemdict) :
  List.length (top5 (_summarize_prs prs))
  = Nat.min 5 (distinct (map repo_shortname prs))
  /\ (List.length (top5 (_summarize_prs prs)) <= 5)%nat
  /\ NoDup (map fst (top5 (_summarize_prs prs)))
  /\ (forall r n, In (r, n) (top5 (_summarize_prs prs)) ->
                  In r (map repo_shortname prs)
                  /\ n = occurrences r (map repo_shortname prs))
  /\ StronglySorted (ranks_before (map repo_shortname prs)) (top5 (_summarize_prs prs))
  /\ (forall p r, In p (top5 (_summarize_prs prs)) ->
                  In r (map repo_shortname prs) ->
                  ~ In r (map fst (top5 (_summarize_prs prs))) ->
                  ranks_before (map repo_shortname prs) p
                               (r, occurrences r (map repo_shortname prs)))
  /\ (map repo_shortname prs = ["A"; "B"; "A"; "C"; "B"; "A"] ->
      top5 (_summarize_prs prs) = [("A", 3); ("B", 2); ("C", 1)]).
Proof.
  split; [| split; [| split; [| split; [| split; [| split]]]]].
  - unfold _summarize_prs, most_common. cbn [top5].
    rewrite length_firstn, (Permutation_length (sorted_desc_perm _)), Counter_length.
    reflexivity.
  - apply firstn_le_length.
  - unfold _summarize_prs, most_common. cbn [top5].
    destruct (Counter_counts_of (map repo_shortname prs)) as [Hnd _ _ _].
    apply (Permutation_NoDup (Permutation_map fst (Permutation_sym (sorted_desc_perm _))))
      in Hnd.
    rewrite <- (firstn_skipn 5 (sorted_desc (Counter (map repo_shortname prs)))) in Hnd.
    rewrite map_app in Hnd. exact (NoDup_app_remove_r _ _ Hnd).
  - unfold _summarize_prs. cbn [top5].
    destruct (Counter_counts_of (map repo_shortname prs)) as [_ Hkeys Hcounts _].
    intros r n Hin. apply in_firstn in Hin.
    apply (Permutation_in _ (sorted_desc_perm _)) in Hin.
    split.
    + apply Hkeys, in_map_iff. exists (r, n). auto.
    + rewrite Forall_forall in Hcounts. exact (Hcounts _ Hin).
  - unfold _summarize_prs. cbn [top5].
    destruct (Counter_counts_of (map repo_shortname prs)) as [_ _ _ Hord].
    apply StronglySorted_firstn, sorted_desc_ranked, Hord.
  - intros p r Hp Hr Hout. exact (top5_outranks prs r p Hr Hout Hp).
  - intros Hrepos. unfold _summarize_prs. cbn [top5]. rewrite Hrepos. reflexivity.
Qed.

Lemma top5_ranked_witness :
  top5 (_summarize_prs (map (fun r => new_itemdict r (oct3 (Sample.network JNull JNull)))
                            ["A"; "B"; "A"; "C"; "B"; "A"]))
  = [("A", 3); ("B", 2); ("C", 1)].
Proof.
  destruct (top5_ranked (map (fun r => new_itemdict r (oct3 (Sample.network JNull JNull)))
                             ["A"; "B"; "A"; "C"; "B"; "A"]))
    as (_ & _ & _ & _ & _ & _ & Hexample).
  apply Hexample. vm_compute. reflexivity.
Defined.

(** * Further properties *)

(** ** The requests of a query *)

Lemma requests_app (t t' : list event) :
  requests (t ++ t') = (requests t ++ requests t')%list.
Proof.
  induction t as [| [url h | lvl msg args | content embed] t IH]; simpl;
    rewrite ?IH; reflexivity.
Qed.

Lemma requests_bind {A B : Type} (m : M A) (f : A -> M B) :
  requests (trace (bind m f))
  = (requests (trace m)
     ++ match outcome m with
        | Ok a => requests (trace (f a))
        | Raise _ => []
        end)%list.
Proof.
  rewrite trace_bind. destruct (outcome m) as [a | e].
  - apply requests_app.
  - rewrite app_nil_r. reflexivity.
Qed.

Lemma requests_session_get (E : env) (url : string) (headers : list (string * string)) :
  requests (trace (session_get E url headers)) = [(url, headers)].
Proof. reflexivity. Qed.

Lemma quiet_bind {A B : Type} (m : M A) (f : A -> M B) :
  quiet m -> (forall a, quiet (f a)) -> quiet (bind m f).
Proof.
  unfold quiet. intros Hm Hf. rewrite requests_bind, Hm.
  destruct (outcome m); [apply Hf | reflexivity].
Qed.

Lemma quiet_lift {A : Type} (r : result A) : quiet (lift r).
Proof. reflexivity. Qed.

Lemma quiet_ret {A : Type} (a : A) : quiet (ret a).
Proof. reflexivity. Qed.

Lemma quiet_log (lvl : level) (msg : string) (args : list json) :
  quiet (emit (Log lvl msg args)).
Proof. reflexivity. Qed.

Ltac hush :=
  repeat first
    [ apply quiet_lift | apply quiet_ret | apply quiet_log
    | apply quiet_bind; [| intros ?]
    | match goal with |- quiet (if ?c then _ else _) => destruct c end ].

Lemma asks_topics_quiet {A : Type} (m : M A) : quiet m -> asks_topics m.
Proof. intros H. left. exact H. Qed.

Lemma asks_topics_bind {A B : Type} (m : M A) (f : A -> M B) :
  quiet m -> (forall a, asks_topics (f a)) -> asks_topics (bind m f).
Proof.
  unfold quiet, asks_topics. intros Hm Hf. rewrite requests_bind, Hm.
  destruct (outcome m) as [a | e]; [apply Hf | left; reflexivity].
Qed.

Lemma asks_topics_get {B : Type} (E : env) (shortname : string) (f : json -> M B) :
  (forall a, quiet (f a)) ->
  asks_topics (bind (session_get E (topics_query_url shortname) GITHUB_TOPICS_ACCEPT_HEADER) f).
Proof.
  intros Hf. right. exists shortname. rewrite requests_bind. simpl.
  rewrite Hf. reflexivity.
Qed.

Lemma asks_topics_loop_body (E : env) (jsonresp item : json) (outlist : list itemdict) :
  asks_topics (loop_body E jsonresp item outlist).
Proof.
  unfold loop_body, logging.
  repeat first
    [ apply asks_topics_get; intros ?; hush
    | apply asks_topics_bind; [apply quiet_lift | intros ?]
    | match goal with |- asks_topics (if ?c then _ else _) => destruct c end
    | apply asks_topics_quiet; apply quiet_ret ].
Qed.

Lemma requests_for_items (E : env) (jsonresp : json) (items : list json) :
  forall outlist,
    Forall is_topics_request (requests (trace (for_items E jsonresp items outlist)))
    /\ (List.length (requests (trace (for_items E jsonresp items outlist)))
        <= List.length items)%nat.
Proof.
  induction items as [| item items IH]; intros outlist; simpl.
  - split; [constructor | lia].
  - rewrite requests_bind.
    assert (Htail : forall a,
      Forall is_topics_request (requests (trace (for_items E jsonresp items a)))
      /\ (List.length (requests (trace (for_items E jsonresp items a)))
          <= List.length items)%nat) by (intros a; apply IH).
    destruct (asks_topics_loop_body E jsonresp item outlist) as [H | [sn H]];
      rewrite H; destruct (outcome (loop_body E jsonresp item outlist)) as [a | e];
      simpl; try destruct (Htail a) as [Hall Hlen];
      split; try lia; repeat constructor; try assumption.
    + exists sn. reflexivity.
    + exists sn. reflexivity.
Qed.

(** X1. A query begins with the search request, sent with the headers of
    the module; every later request asks for the topics of a repository and
    carries the Accept header only; there is at most one of them per item of
    the search response. *)
Theorem get_october_prs_requests (E : env) (github_username : string) :
  exists topics_requests,
    requests (trace (get_october_prs E github_username))
    = (query_url E github_username, REQUEST_HEADERS E) :: topics_requests
    /\ Forall is_topics_request topics_requests
    /\ (List.length topics_requests <= List.length (search_items E github_username))%nat.
Proof.
  unfold get_october_prs, search_items, search_response.
  set (jsonresp := http_get E (query_url E github_username) (REQUEST_HEADERS E)).
  rewrite !requests_bind. cbn [trace outcome fst snd logging emit requests app].
  rewrite requests_session_get, outcome_session_get. fold jsonresp. cbn [app].
  eexists. split; [reflexivity |].
  rewrite requests_bind. cbn [trace outcome lift fst snd requests app].
  destruct (py_in_keys "message" jsonresp) as [[|] | e].
  - assert (Hq : quiet (errors <- lift (py_getitem jsonresp (JStr "errors")) ;;
                        error0 <- lift (py_getitem errors (JNum 0)) ;;
                        api_message <- lift (py_getitem error0 (JStr "message")) ;;
                        (if py_eq_str api_message GITHUB_NONEXISTENT_USER_MESSAGE
                         then logging DEBUG ("No GitHub user found named '"
                                             ++ github_username ++ "'") ;;;
                              ret PrsFalse
                         else logging ERROR ("GitHub API request for '" ++ github_username
                                             ++ "' failed with message: "
                                             ++ py_str api_message) ;;;
                              ret PrsFalse))).
    { unfold logging. hush. }
    rewrite Hq. split; [constructor | simpl; lia].
  - rewrite requests_bind. cbn [trace outcome lift fst snd requests app rbind].
    destruct (py_getitem jsonresp (JStr "total_count")) as [total_count | e];
      [| split; [constructor | simpl; lia]].
    destruct (py_eq_zero total_count); [split; [constructor | simpl; lia] |].
    rewrite requests_bind. cbn [trace outcome lift fst snd requests app rbind].
    destruct (py_getitem jsonresp (JStr "items")) as [items_v | e];
      [| split; [constructor | simpl; lia]].
    rewrite requests_bind. cbn [trace outcome lift fst snd requests app rbind].
    destruct (py_iter items_v) as [items | e]; [| split; [constructor | simpl; lia]].
    rewrite requests_bind.
    destruct (requests_for_items E jsonresp items []) as [Hall Hlen].
    destruct (outcome (for_items E jsonresp items [])); simpl;
      rewrite ?app_nil_r; split; assumption.
  - split; [constructor | simpl; lia].
Qed.

(** ** The list that is returned *)

Lemma for_items_flat_map (E : env) (jsonresp : json) (items : list json) :
  forall outlist outlist',
    outcome (for_items E jsonresp items outlist) = Ok outlist' ->
    outlist' = (outlist ++ flat_map (admitted E jsonresp) items)%list.
Proof.
  induction items as [| item items IH]; intros outlist outlist' Hrun; simpl in *.
  - injection Hrun as <-. rewrite app_nil_r. reflexivity.
  - destruct (loop_body_appends E jsonresp item) as (t & d & Hbody).
    rewrite outcome_bind, (Hbody outlist) in Hrun.
    assert (Ha : admitted E jsonresp item
                 = match d with Ok (Some x) => [x] | _ => [] end).
    { unfold admitted. rewrite (Hbody []). destruct d as [[x |] | e]; reflexivity. }
    rewrite Ha.
    destruct d as [[x |] | e]; simpl in *.
    + apply IH in Hrun. rewrite Hrun, <- app_assoc. reflexivity.
    + apply IH in Hrun. exact Hrun.
    + discriminate.
Qed.

Lemma get_october_prs_list_inv (E : env) (github_username : string)
    (outlist : list itemdict) :
  outcome (get_october_prs E github_username) = Ok (PrsList outlist) ->
  outcome (for_items E (search_response E github_username)
                     (search_items E github_username) [])
  = Ok outlist.
Proof.
  intros Hrun. rewrite get_october_prs_outcome in Hrun. cbv zeta in Hrun.
  unfold search_items. set (jsonresp := search_response E github_username) in *.
  destruct (py_in_keys "message" jsonresp) as [[|] | e]; cbn [rbind] in Hrun;
    [| | discriminate].
  - destruct (py_getitem jsonresp (JStr "errors")) as [errors | e]; cbn [rbind] in Hrun;
      [| discriminate].
    destruct (py_getitem errors (JNum 0)) as [error0 | e]; cbn [rbind] in Hrun;
      [| discriminate].
    destruct (py_getitem error0 (JStr "message")); discriminate.
  - destruct (py_getitem jsonresp (JStr "total_count")) as [total_count | e];
      cbn [rbind] in Hrun; [| discriminate].
    destruct (py_eq_zero total_count); [discriminate |].
    destruct (py_getitem jsonresp (JStr "items")) as [items_v | e]; cbn [rbind] in *;
      [| discriminate].
    destruct (py_iter items_v) as [items | e]; cbn [rbind] in Hrun; [| discriminate].
    destruct (outcome (for_items E jsonresp items [])) as [out | e] eqn:Hloop;
      cbn [rbind] in Hrun; [| discriminate].
    injection Hrun as <-. reflexivity.
Qed.

(** X2. The list that [get_october_prs] returns holds the dicts of the
    admitted items of the search response and nothing else, in the order
    of the response: no item is reordered, repeated or merged. *)
Theorem get_october_prs_keeps_order
    (E : env) (github_username : string) (outlist : list itemdict)
    (Hrun : outcome (get_october_prs E github_username) = Ok (PrsList outlist)) :
  outlist = flat_map (admitted E (search_response E github_username))
                     (search_items E github_username)
  /\ Forall (fun item =>
               (List.length (admitted E (search_response E github_username) item) <= 1)%nat)
            (search_items E github_username).
Proof.
  split.
  - apply get_october_prs_list_inv, for_items_flat_map in Hrun. exact Hrun.
  - rewrite Forall_forall. intros item _. unfold admitted.
    destruct (loop_body_appends E (search_response E github_username) item)
      as (t & d & Hbody).
    rewrite (Hbody []). destruct d as [[x |] | e]; simpl; lia.
Qed.

Lemma get_october_prs_keeps_order_witness :
  [new_itemdict "python-discord/seasonalbot"
     {| year := 2020; month := 10; day := 2; hour := 23; minute := 59; second := 59 |};
   new_itemdict "octocat/hello-world"
     {| year := 2020; month := 10; day := 3; hour := 0; minute := 0; second := 0 |}]
  = flat_map (admitted (Sample.network (Sample.search [Sample.early; Sample.late])
                                       (Sample.topics ["hacktoberfest"]))
                       (search_response
                          (Sample.network (Sample.search [Sample.early; Sample.late])
                                          (Sample.topics ["hacktoberfest"])) "octocat"))
             (search_items (Sample.network (Sample.search [Sample.early; Sample.late])
                                           (Sample.topics ["hacktoberfest"])) "octocat").
Proof.
  refine (proj1 (get_october_prs_keeps_order
                   (Sample.network (Sample.search [Sample.early; Sample.late])
                                   (Sample.topics ["hacktoberfest"]))
                   "octocat" _ _)).
  vm_compute. reflexivity.
Defined.

(** ** What [_get_shortname] accepts and what it returns *)

Lemma exp_unfold : exp = Seq (lit "http") (Seq (Opt (chr "s")) exp_tail).
Proof. reflexivity. Qed.

Lemma rmatch_one_inv {R : Type} (p : ascii -> bool) (s : string) (g : groups)
    (k : string -> groups -> option R) (r : R) :
  rmatch (One p) s g k = Some r ->
  exists c s1, s = String c s1 /\ p c = true /\ k s1 g = Some r.
Proof.
  simpl. destruct s as [| c s1]; [discriminate |].
  destruct (p c) eqn:Hc; [| discriminate]. intros H. exists c, s1. auto.
Qed.

Lemma rmatch_lit_inv {R : Type} (w : string) :
  forall (s : string) (g : groups) (k : string -> groups -> option R) (r : R),
    rmatch (lit w) s g k = Some r ->
    exists s1, s = w ++ s1 /\ k s1 g = Some r.
Proof.
  induction w as [| c w IH]; intros s g k r H.
  - exists s. auto.
  - cbn [lit rmatch] in H. unfold chr in H.
    apply rmatch_one_inv in H as (c' & s1 & -> & Hc & H).
    apply Ascii.eqb_eq in Hc. subst c'.
    apply IH in H as (s2 & -> & H). exists s2. auto.
Qed.

Lemma star_total {R : Type} (p : ascii -> bool) (k : string -> option R) :
  (forall s, k s <> None) -> forall s, star p s k <> None.
Proof.
  intros Hk s. induction s as [| c s IH]; simpl; [apply Hk |].
  destruct (p c); [| apply Hk].
  destruct (star p s k); [discriminate | contradiction].
Qed.

(** With a continuation that accepts everything the greedy repetition
    takes the longest run. *)
Lemma star_inv {R : Type} (p : ascii -> bool) (k : string -> option R) :
  (forall s, k s <> None) ->
  forall (s : string) (r : R),
    star p s k = Some r ->
    exists run s2, s = run ++ s2 /\ string_forallb p run = true
                   /\ stops p s2 = true /\ k s2 = Some r.
Proof.
  intros Hk s. induction s as [| c s IH]; simpl; intros r H.
  - exists "", "". auto.
  - destruct (p c) eqn:Hc.
    + destruct (star p s k) as [r' |] eqn:Hs.
      * injection H as <-. destruct (IH r' eq_refl) as (run & s2 & -> & Hrun & Hstop & Hk2).
        exists (String c run), s2. simpl. rewrite Hc. auto.
      * exfalso. exact (star_total p k Hk s Hs).
    + exists "", (String c s). simpl. rewrite Hc. auto.
Qed.

Lemma exp_tail_inv (s s' : string) (g g' : groups) :
  rmatch exp_tail s g (fun s1 g1 => Some (s1, g1)) = Some (s', g') ->
  exists c1 c2 name,
    s = "://api" ++ String c1 ("github" ++ String c2 ("com/repos/" ++ name ++ s'))
    /\ is_newline c1 = false /\ is_newline c2 = false
    /\ name <> "" /\ string_forallb shortname_char name = true
    /\ stops shortname_char s' = true
    /\ g' = (1%nat, name) :: g.
Proof.
  unfold exp_tail. cbn [rmatch]. intros H.
  apply rmatch_lit_inv in H as (s1 & -> & H).
  unfold dot at 1 in H. apply rmatch_one_inv in H as (c1 & s2 & -> & Hc1 & H).
  apply rmatch_lit_inv in H as (s3 & -> & H).
  unfold dot at 1 in H. apply rmatch_one_inv in H as (c2 & s4 & -> & Hc2 & H).
  apply rmatch_lit_inv in H as (s5 & -> & H).
  destruct s5 as [| c s5]; [discriminate |].
  destruct (shortname_char c) eqn:Hc; [| discriminate].
  apply star_inv in H; [| discriminate].
  destruct H as (run & s6 & -> & Hrun & Hstop & H).
  injection H as <- <-.
  exists c1, c2, (String c run).
  change (String c (run ++ s6)) with (String c run ++ s6).
  rewrite consumed_append. simpl. rewrite Hc, Hrun.
  apply negb_true_iff in Hc1, Hc2.
  repeat split; auto. discriminate.
Qed.

Lemma exp_inv (s s' : string) (g : groups) :
  re_match exp s = Some (s', g) ->
  exists scheme c1 c2 name,
    s = repo_api_url scheme c1 c2 name s'
    /\ (scheme = "" \/ scheme = "s")
    /\ is_newline c1 = false /\ is_newline c2 = false
    /\ name <> "" /\ string_forallb shortname_char name = true
    /\ stops shortname_char s' = true
    /\ group 1 g = name.
Proof.
  unfold re_match. rewrite exp_unfold. cbn [rmatch]. intros H.
  apply rmatch_lit_inv in H as (s1 & -> & H).
  match type of H with
  | match ?m with _ => _ end = _ => destruct m as [[s2 g2] |] eqn:Hs
  end.
  - injection H as -> ->. unfold chr in Hs.
    apply rmatch_one_inv in Hs as (c & s3 & -> & Hc & Hs).
    apply Ascii.eqb_eq in Hc. subst c.
    apply exp_tail_inv in Hs as (c1 & c2 & name & -> & H1 & H2 & H3 & H4 & H5 & ->).
    exists "s", c1, c2, name. repeat split; auto.
  - apply exp_tail_inv in H as (c1 & c2 & name & -> & H1 & H2 & H3 & H4 & H5 & ->).
    exists "", c1, c2, name. repeat split; auto.
Qed.

Lemma findall_head (r : regex) (fuel : nat) :
  forall (s x : string) (tl : list string),
    findall_fuel fuel r s = x :: tl ->
    exists n s' g,
      re_match r (drop n s) = Some (s', g) /\ x = group 1 g
      /\ forall m, (m < n)%nat -> re_match r (drop m s) = None.
Proof.
  induction fuel as [| fuel IH]; intros s x tl H; [discriminate |].
  cbn [findall_fuel] in H.
  destruct (re_match r s) as [[s' g] |] eqn:Hm.
  - injection H as <- _. exists O, s', g. repeat split; auto. intros m Hlt. lia.
  - destruct s as [| c t]; [discriminate |].
    apply IH in H as (n & s' & g & Hn & Hx & Hleft).
    exists (S n), s', g. repeat split; auto.
    intros [| m] Hlt; [exact Hm | apply Hleft; lia].
Qed.

Lemma drop_split (n : nat) :
  forall s, drop n s <> "" ->
            exists before, s = before ++ drop n s /\ String.length before = n.
Proof.
  induction n as [| n IH]; intros s H.
  - exists "". auto.
  - destruct s as [| c s]; [contradiction |].
    destruct (IH s H) as (before & Hs & Hlen).
    exists (String c before). simpl. split; [f_equal; exact Hs | f_equal; exact Hlen].
Qed.

Lemma exp_matches (scheme : string) (c1 c2 : ascii) (name after : string) :
  scheme = "" \/ scheme = "s" ->
  is_newline c1 = false -> is_newline c2 = false ->
  name <> "" ->
  string_forallb shortname_char name = true ->
  stops shortname_char after = true ->
  re_match exp (repo_api_url scheme c1 c2 name after) = Some (after, [(1%nat, name)]).
Proof.
  intros Hscheme Hc1 Hc2 Hne Hname Hstop.
  destruct name as [| c name]; [congruence |].
  simpl in Hname. apply andb_true_iff in Hname as [Hc Hname].
  unfold is_newline in *.
  unfold re_match, exp, repo_api_url.
  destruct Hscheme as [-> | ->]; cbn -[star consumed];
    rewrite Hc1, Hc2; cbn -[star consumed]; rewrite Hc;
    rewrite (star_run shortname_char _
               (after, [(1%nat, consumed (String c (name ++ after)) after)]) name after
               Hname Hstop eq_refl);
    change (String c (name ++ after)) with (String c name ++ after);
    rewrite consumed_append; reflexivity.
Qed.

(** X3. The pattern of [_get_shortname] checks the host loosely: the
    scheme may be [http] or [https], and where the host name has its two
    dots any character but a newline passes.  On every such URL the function
    returns the run of characters of the class that follows [/repos/]. *)
Theorem get_shortname_accepts
    (scheme : string) (c1 c2 : ascii) (name after : string)
    (Hscheme : scheme = "" \/ scheme = "s")
    (Hc1 : is_newline c1 = false) (Hc2 : is_newline c2 = false)
    (Hne : name <> "")
    (Hname : string_forallb shortname_char name = true)
    (Hstop : stops shortname_char after = true) :
  _get_shortname (repo_api_url scheme c1 c2 name after) = Ok name.
Proof.
  unfold _get_shortname.
  destruct (findall_first _ _ _ _ (exp_matches scheme c1 c2 name after
                                     Hscheme Hc1 Hc2 Hne Hname Hstop))
    as [tl Htl].
  rewrite Htl. reflexivity.
Qed.

Lemma get_shortname_accepts_witness :
  _get_shortname "http://api-github/com/repos/octocat/hello-world#readme"
  = Ok "octocat/hello-world".
Proof.
  refine (get_shortname_accepts "" "-" "/" "octocat/hello-world" "#readme" _ _ _ _ _ _);
    [left; reflexivity | reflexivity | reflexivity | discriminate
    | vm_compute; reflexivity | vm_compute; reflexivity].
Defined.

(** X4. What a result of [_get_shortname] guarantees: the string returned
    is not empty, is made of characters of the class [[/\-\_\.\w]] only, and
    stands in the input right after the first place, from the left, where
    the pattern matches; it is the whole run of such characters there. *)
Theorem get_shortname_result (in_url name : string)
    (Hres : _get_shortname in_url = Ok name) :
  name <> ""
  /\ string_forallb shortname_char name = true
  /\ exists before scheme c1 c2 after,
       in_url = before ++ repo_api_url scheme c1 c2 name after
       /\ (scheme = "" \/ scheme = "s")
       /\ is_newline c1 = false /\ is_newline c2 = false
       /\ stops shortname_char after = true
       /\ forall m, (m < String.length before)%nat -> re_match exp (drop m in_url) = None.
Proof.
  unfold _get_shortname, findall in Hres.
  destruct (findall_fuel (S (String.length in_url)) exp in_url) as [| x tl] eqn:Hf;
    [discriminate |].
  injection Hres as ->.
  apply findall_head in Hf as (n & s' & g & Hm & Hx & Hleft).
  apply exp_inv in Hm as (scheme & c1 & c2 & name' & Hs & Hscheme & Hc1 & Hc2 & Hne & Hcls & Hstop & Hg).
  rewrite <- Hx in Hg. subst name'.
  split; [exact Hne |]. split; [exact Hcls |].
  destruct (drop_split n in_url) as (before & Hsplit & Hlen).
  { rewrite Hs. unfold repo_api_url. discriminate. }
  exists before, scheme, c1, c2, s'.
  rewrite <- Hs, Hlen. repeat split; auto.
Qed.

Lemma get_shortname_result_witness :
  "octocat/hello-world" <> ""
  /\ string_forallb shortname_char "octocat/hello-world" = true
  /\ exists before scheme c1 c2 after,
       "see https://api.github.com/repos/octocat/hello-world?tab=1"
       = before ++ repo_api_url scheme c1 c2 "octocat/hello-world" after
       /\ (scheme = "" \/ scheme = "s")
       /\ is_newline c1 = false /\ is_newline c2 = false
       /\ stops shortname_char after = true
       /\ forall m, (m < String.length before)%nat ->
                    re_match exp (drop m "see https://api.github.com/repos/octocat/hello-world?tab=1")
                    = None.
Proof.
  refine (get_shortname_result
            "see https://api.github.com/repos/octocat/hello-world?tab=1"
            "octocat/hello-world" _).
  vm_compute. reflexivity.
Defined.

(** ** The dicts of the list *)

Lemma get_shortname_class (in_url name : string) :
  _get_shortname in_url = Ok name ->
  name <> "" /\ string_forallb shortname_char name = true.
Proof.
  unfold _get_shortname, findall. intros Hres.
  destruct (findall_fuel (S (String.length in_url)) exp in_url) as [| x tl] eqn:Hf;
    [discriminate |].
  injection Hres as ->.
  apply findall_head in Hf as (n & s' & g & Hm & Hx & _).
  apply exp_inv in Hm as (_ & _ & _ & name' & _ & _ & _ & _ & Hne & Hcls & _ & Hg).
  rewrite <- Hx in Hg. subst name'. auto.
Qed.

Lemma appends_only_bind {A : Type} (P : itemdict -> Prop) (m : M A)
    (f : A -> list itemdict -> M (list itemdict)) :
  (forall a, outcome m = Ok a -> appends_only P (f a)) ->
  appends_only P (fun outlist => bind m (fun a => f a outlist)).
Proof.
  intros H outlist outlist'. rewrite outcome_bind.
  destruct (outcome m) as [a | e] eqn:Hm; simpl; [| discriminate].
  apply (H a eq_refl).
Qed.

Lemma appends_only_same (P : itemdict -> Prop) :
  appends_only P (fun outlist => ret outlist).
Proof. intros outlist outlist' H. injection H as <-. left. reflexivity. Qed.

Lemma appends_only_app (P : itemdict -> Prop) (x : itemdict) :
  P x -> appends_only P (fun outlist => ret (outlist ++ [x])%list).
Proof.
  intros Hx outlist outlist' H. injection H as <-. right. exists x. auto.
Qed.

Lemma loop_body_well_formed (E : env) (jsonresp item : json) :
  appends_only well_formed_itemdict (loop_body E jsonresp item).
Proof.
  unfold loop_body.
  apply appends_only_bind. intros in_url _.
  apply appends_only_bind. intros shortname Hshort.
  assert (Hwf : forall created, well_formed_itemdict (new_itemdict shortname created)).
  { intros created. destruct in_url as [| | | u | |]; try discriminate.
    apply get_shortname_class in Hshort. split; [reflexivity | exact Hshort]. }
  apply appends_only_bind. intros created_str _.
  apply appends_only_bind. intros created _.
  destruct (datetime_ltb created (oct3 E)); [apply appends_only_app, Hwf |].
  repeat (apply appends_only_bind; intros ? _).
  match goal with |- context [if ?c then _ else _] => destruct c end;
    [apply appends_only_app, Hwf | apply appends_only_same].
Qed.

Lemma for_items_well_formed (E : env) (jsonresp : json) (items : list json) :
  forall outlist outlist',
    Forall well_formed_itemdict outlist ->
    outcome (for_items E jsonresp items outlist) = Ok outlist' ->
    Forall well_formed_itemdict outlist'.
Proof.
  induction items as [| item items IH]; intros outlist outlist' Hwf Hrun; simpl in Hrun.
  - injection Hrun as <-. exact Hwf.
  - rewrite outcome_bind in Hrun.
    destruct (outcome (loop_body E jsonresp item outlist)) as [out1 |] eqn:Hbody;
      simpl in Hrun; [| discriminate].
    apply (IH out1 outlist'); [| exact Hrun].
    destruct (loop_body_well_formed E jsonresp item outlist out1 Hbody)
      as [-> | (x & Hx & ->)]; [exact Hwf |].
    apply Forall_app. split; [exact Hwf | constructor; [exact Hx | constructor]].
Qed.

(** X5. Every dict of the list that [get_october_prs] returns has a
    non-empty short name made of characters of the class of the pattern, and
    its [repo_url] is [https://www.github.com/] followed by that short name;
    so the links of the embed are built from such names only. *)
Theorem get_october_prs_well_formed
    (E : env) (github_username : string) (outlist : list itemdict)
    (Hrun : outcome (get_october_prs E github_username) = Ok (PrsList outlist)) :
  Forall well_formed_itemdict outlist.
Proof.
  apply get_october_prs_list_inv in Hrun.
  revert Hrun. apply for_items_well_formed. constructor.
Qed.

Lemma get_october_prs_well_formed_witness :
  Forall well_formed_itemdict
    [new_itemdict "python-discord/seasonalbot"
       {| year := 2020; month := 10; day := 2; hour := 23; minute := 59; second := 59 |};
     new_itemdict "octocat/hello-world"
       {| year := 2020; month := 10; day := 3; hour := 0; minute := 0; second := 0 |}].
Proof.
  refine (get_october_prs_well_formed
            (Sample.network (Sample.search [Sample.early; Sample.late])
                            (Sample.topics ["hacktoberfest"]))
            "octocat" _ _).
  vm_compute. reflexivity.
Defined.

(** ** The reply of [get_stats] *)

Lemma build_embed_run (github_username : string) (prs : list itemdict) :
  exists stats_embed,
    build_embed github_username prs
    = ([Log INFO ("Building Hacktoberfest embed for GitHub user: '"
                  ++ github_username ++ "'") [];
        Log INFO ("Hacktoberfest PR built for GitHub user '" ++ github_username ++ "'") []],
       Ok stats_embed)
    /\ fields stats_embed
       = [("Top 5 Repositories:", _build_top5str (_summarize_prs prs))].
Proof.
  unfold build_embed. cbn [bind logging emit ret app]. eexists. split; reflexivity.
Qed.

(** X6. [get_stats] answers once or not at all.  When the query raises,
    the exception leaves [get_stats] and nothing is posted.  When the query
    returns, exactly one message is posted: the statistics with the embed
    for a non-empty list, in which case the embed counts at least one pull
    request, and the message that nothing was found for [False], [None] and
    the empty list. *)
Theorem get_stats_replies (E : env) (github_username : string) :
  match outcome (get_october_prs E github_username) with
  | Raise e =>
      outcome (get_stats E github_username) = Raise e
      /\ sent (trace (get_stats E github_username)) = []
  | Ok p =>
      outcome (get_stats E github_username) = Ok tt
      /\ if truthy p then
           1 <= n_prs (_summarize_prs (prs_list p))
           /\ exists stats_embed,
                outcome (build_embed github_username (prs_list p)) = Ok stats_embed
                /\ sent (trace (get_stats E github_username))
                   = [("Here are some stats!", Some stats_embed)]
         else
           sent (trace (get_stats E github_username))
           = [(no_contributions_message github_username, None)]
  end.
Proof.
  pose proof (silent_get_october_prs E github_username) as Hsilent.
  unfold silent in Hsilent. unfold get_stats.
  rewrite outcome_bind, trace_bind.
  destruct (outcome (get_october_prs E github_username)) as [p | e]; cbn [rbind].
  - rewrite sent_app, Hsilent.
    destruct (truthy p) eqn:Htruthy.
    + destruct (build_embed_run github_username (prs_list p)) as (emb & Hrun & _).
      rewrite outcome_bind, trace_bind, Hrun. cbn [outcome trace fst snd rbind emit].
      split; [reflexivity |]. split.
      * destruct p as [[| x l] | |]; try discriminate. simpl. lia.
      * exists emb. split; reflexivity.
    + split; reflexivity.
  - split; [reflexivity | exact Hsilent].
Qed.

Lemma counter_incr_nonempty (x : string) (c : counter) : counter_incr x c <> [].
Proof. destruct c as [| [k n] c]; simpl; [| destruct (String.eqb x k)]; discriminate. Qed.

Lemma concat_nonempty (sep : string) (l : list string) :
  l <> [] -> Forall (fun s => s <> "") l -> String.concat sep l <> "".
Proof.
  intros Hl Hall. destruct l as [| s l]; [contradiction |].
  inversion Hall as [| ? ? Hs _]; subst.
  destruct s as [| c s]; [contradiction |].
  simpl. destruct l; simpl; discriminate.
Qed.

(** X7. For a non-empty list of pull requests the text of the field
    "Top 5 Repositories" is not empty: it has a line for the first
    repository at least. *)
Theorem build_top5str_nonempty (prs : list itemdict) (Hprs : prs <> []) :
  _build_top5str (_summarize_prs prs) <> "".
Proof.
  unfold _build_top5str, _summarize_prs. cbn [top5].
  apply concat_nonempty.
  - intros Hnil. apply map_eq_nil in Hnil. unfold most_common in Hnil.
    assert (Hlen : List.length (sorted_desc (Counter (map repo_shortname prs))) <> O).
    { rewrite (Permutation_length (sorted_desc_perm _)).
      destruct prs as [| pr prs] using rev_ind; [contradiction |].
      rewrite map_app. simpl. rewrite Counter_snoc.
      intros H. apply length_zero_iff_nil in H. exact (counter_incr_nonempty _ _ H). }
    destruct (sorted_desc (Counter (map repo_shortname prs))); [contradiction |].
    discriminate.
  - rewrite Forall_map, Forall_forall. intros [r n] _. cbn [fst snd].
    pose proof (str_of_int_nonempty n) as Hn.
    destruct (str_of_int n); [simpl in Hn; lia | discriminate].
Qed.

Lemma build_top5str_nonempty_witness :
  _build_top5str
    (_summarize_prs
       [new_itemdict "octocat/hello-world"
          {| year := 2020; month := 10; day := 3; hour := 0; minute := 0; second := 0 |}])
  <> "".
Proof.
  refine (build_top5str_nonempty _ _). discriminate.
Defined.

(** ** The cut-off *)

Lemma int_of_group_nonneg (s : string) : 0 <= int_of_group s.
Proof.
  unfold int_of_group.
  assert (H : forall l acc, 0 <= acc ->
    0 <= fold_left (fun acc c =>
                      if is_digit c then 10 * acc + (Z.of_nat (nat_of_ascii c) - 48)
                      else acc) l acc).
  { induction l as [| c l IH]; intros acc Hacc; cbn [fold_left]; [exact Hacc |].
    apply IH. destruct (is_digit c) eqn:Hd; [| exact Hacc].
    unfold is_digit, in_range in Hd. apply andb_true_iff in Hd as [Hlo _].
    apply Nat.leb_le in Hlo.
    assert (H0 : nat_of_ascii "0" = 48%nat) by reflexivity.
    lia. }
  apply H. lia.
Qed.

Lemma strptime_time_nonneg (v : json) (d : datetime) :
  strptime v = Ok d -> 0 <= hour d /\ 0 <= minute d /\ 0 <= second d.
Proof.
  unfold strptime. destruct v as [| | | s | |]; try discriminate.
  destruct (re_match format_regex s) as [[[| c rest] g] |]; try discriminate.
  match goal with |- context [if ?c then _ else _] => destruct c end; [| discriminate].
  intros H. injection H as <-. simpl.
  repeat split; apply int_of_group_nonneg.
Qed.

(** X8. The grace period is a matter of the calendar day: a parsed
    [created_at] is before the cut-off exactly when its date is before
    3 October of the current year, whatever its time of day; so the first and
    the second of October are in, and the third is out from midnight on. *)
Theorem grace_period_is_by_date (E : env) (v : json) (d : datetime)
    (Hparse : strptime v = Ok d) :
  datetime_ltb d (oct3 E) = true
  <-> year d < CURRENT_YEAR E
      \/ (year d = CURRENT_YEAR E
          /\ (month d < 10 \/ (month d = 10 /\ day d < 3))).
Proof.
  apply strptime_time_nonneg in Hparse as (Hh & Hm & Hs).
  unfold datetime_ltb, datetime_fields, oct3. cbn [lex_ltb year month day hour minute second].
  rewrite !orb_true_iff, !andb_true_iff, !orb_true_iff, !andb_true_iff.
  rewrite !orb_true_iff, !andb_true_iff, !orb_true_iff, !andb_true_iff.
  rewrite !Z.ltb_lt, !Z.eqb_eq. split.
  - intros H. lia.
  - intros H. lia.
Qed.

Lemma grace_period_is_by_date_witness :
  datetime_ltb {| year := 2020; month := 10; day := 2; hour := 23; minute := 59; second := 59 |}
               (oct3 (Sample.network JNull JNull)) = true
  <-> 2020 < 2020 \/ (2020 = 2020 /\ (10 < 10 \/ (10 = 10 /\ 2 < 3))).
Proof.
  refine (grace_period_is_by_date (Sample.network JNull JNull)
            (JStr "2020-10-02T23:59:59Z") _ _).
  vm_compute. reflexivity.
Defined.

Lemma loop_body_in_grace (E : env) (jsonresp item : json) :
  in_grace E item = true ->
  exists x, forall outlist,
    loop_body E jsonresp item outlist = ([], Ok (outlist ++ [x])%list).
Proof.
  unfold in_grace. intros H.
  destruct (py_getitem item (JStr "repository_url")) as [[| | | in_url | |] |] eqn:Hurl;
    try discriminate.
  destruct (py_getitem item (JStr "created_at")) as [created_str |] eqn:Hcreated;
    try discriminate.
  destruct (_get_shortname in_url) as [shortname |] eqn:Hshort; try discriminate.
  destruct (strptime created_str) as [created |] eqn:Hparse; try discriminate.
  exists (new_itemdict shortname created). intros outlist. unfold loop_body.
  rewrite Hurl, bind_lift_ok, Hshort, bind_lift_ok.
  rewrite Hcreated, bind_lift_ok, Hparse, bind_lift_ok.
  rewrite H. reflexivity.
Qed.

Lemma for_items_in_grace (E : env) (jsonresp : json) (items : list json) :
  forallb (in_grace E) items = true ->
  forall outlist,
    exists outlist',
      for_items E jsonresp items outlist = ([], Ok outlist')
      /\ List.length outlist' = (List.length outlist + List.length items)%nat.
Proof.
  induction items as [| item items IH]; simpl; intros Hall outlist.
  - exists outlist. split; [reflexivity | lia].
  - apply andb_true_iff in Hall as [Hitem Hall].
    destruct (loop_body_in_grace E jsonresp item Hitem) as [x Hx].
    destruct (IH Hall (outlist ++ [x])%list) as (outlist' & Hrun & Hlen).
    exists outlist'. rewrite Hx. cbn [bind]. rewrite Hrun. split; [reflexivity |].
    rewrite Hlen, length_app. simpl. lia.
Qed.

(** X9. A search response whose items are all within the grace period
    costs one request, the search itself: [get_october_prs] returns a list
    with one dict per item and asks for no topics. *)
Theorem all_in_grace_one_request
    (E : env) (github_username : string) (kv : list (string * json))
    (total_count : json) (items : list json)
    (Hresp : search_response E github_username = JObj kv)
    (Hmessage : has_key "message" kv = false)
    (Hcount : assoc "total_count" kv = Some total_count)
    (Hnonzero : py_eq_zero total_count = false)
    (Hitems : assoc "items" kv = Some (JArr items))
    (Hgrace : forallb (in_grace E) items = true) :
  (exists outlist,
      outcome (get_october_prs E github_username) = Ok (PrsList outlist)
      /\ List.length outlist = List.length items)
  /\ requests (trace (get_october_prs E github_username))
     = [(query_url E github_username, REQUEST_HEADERS E)].
Proof.
  destruct (for_items_in_grace E (JObj kv) items Hgrace []) as (outlist & Hrun & Hlen).
  assert (Hwhole : get_october_prs E github_username
                   = ([Log INFO ("Generating Hacktoberfest PR query for GitHub user: '"
                                 ++ github_username ++ "'") [];
                       Log DEBUG ("GitHub query URL generated: "
                                  ++ query_url E github_username) [];
                       HttpGet (query_url E github_username) (REQUEST_HEADERS E)],
                      Ok (PrsList outlist))).
  { unfold get_october_prs.
    cbn [bind logging emit session_get lift ret fst snd app].
    change (http_get E (query_url E github_username) (REQUEST_HEADERS E))
      with (search_response E github_username).
    rewrite Hresp. cbn [py_in_keys]. rewrite Hmessage. cbn [py_getitem].
    rewrite Hcount, Hnonzero, Hitems. cbn [py_iter]. rewrite Hrun. reflexivity. }
  rewrite Hwhole. split; [| reflexivity].
  exists outlist. split; [reflexivity | exact Hlen].
Qed.

Lemma all_in_grace_one_request_witness :
  requests (trace (get_october_prs
                     (Sample.network (Sample.search [Sample.early; Sample.early])
                                     Sample.not_found)
                     "octocat"))
  = [(query_url (Sample.network JNull JNull) "octocat",
      [("User-Agent", "Python Discord Hacktoberbot")])].
Proof.
  refine (proj2 (all_in_grace_one_request
                   (Sample.network (Sample.search [Sample.early; Sample.early])
                                   Sample.not_found)
                   "octocat"
                   [("total_count", JNum 2); ("incomplete_results", JBool false);
                    ("items", JArr [Sample.early; Sample.early])]
                   (JNum 2) [Sample.early; Sample.early] _ _ _ _ _ _));
    vm_compute; reflexivity.
Defined.

(** ** More on the ranking *)

Lemma NoDup_firstn {A : Type} (n : nat) (l : list A) : NoDup l -> NoDup (firstn n l).
Proof.
  intros H. rewrite <- (firstn_skipn n l) in H. exact (NoDup_app_remove_r _ _ H).
Qed.

(** X10. No repository is listed twice in [top5], and the number of its
    entries is the number of distinct repositories of the pull requests, cut
    at five. *)
Theorem top5_distinct (prs : list itemdict) :
  NoDup (map fst (top5 (_summarize_prs prs)))
  /\ List.length (top5 (_summarize_prs prs))
     = Nat.min 5 (distinct (map repo_shortname prs)).
Proof.
  unfold _summarize_prs. cbn [top5]. set (repos := map repo_shortname prs).
  unfold most_common. split.
  - rewrite <- firstn_map. apply NoDup_firstn.
    destruct (Counter_counts_of repos) as [Hnd _ _ _].
    apply (Permutation_NoDup (Permutation_map fst (Permutation_sym (sorted_desc_perm _)))).
    exact Hnd.
  - rewrite length_firstn, (Permutation_length (sorted_desc_perm _)), Counter_length.
    reflexivity.
Qed.

(** X11. The five that are listed are the largest: a repository of the
    pull requests that [top5] leaves out has no more pull requests than any
    repository that [top5] lists. *)
Theorem top5_keeps_largest (prs : list itemdict) (r : string) (p : string * Z)
    (Hr : In r (map repo_shortname prs))
    (Hout : ~ In r (map fst (top5 (_summarize_prs prs))))
    (Hp : In p (top5 (_summarize_prs prs))) :
  occurrences r (map repo_shortname prs) <= snd p
  /\ snd p = occurrences (fst p) (map repo_shortname prs).
Proof.
  split; [exact (top5_largest prs r p Hr Hout Hp) |].
  unfold _summarize_prs, most_common in Hp. cbn [top5] in Hp.
  apply in_firstn in Hp. apply (Permutation_in _ (sorted_desc_perm _)) in Hp.
  destruct (Counter_counts_of (map repo_shortname prs)) as [_ _ Hcounts _].
  rewrite Forall_forall in Hcounts. exact (Hcounts p Hp).
Qed.

Lemma top5_keeps_largest_witness :
  occurrences "g" ["a"; "a"; "b"; "b"; "c"; "c"; "d"; "d"; "e"; "e"; "f"; "f"; "g"] <= 2.
Proof.
  refine (proj1 (top5_keeps_largest
                   (map (fun r => new_itemdict r (oct3 (Sample.network JNull JNull)))
                        ["a"; "a"; "b"; "b"; "c"; "c"; "d"; "d"; "e"; "e"; "f"; "f"; "g"])
                   "g" ("e", 2) _ _ _)).
  - vm_compute. tauto.
  - vm_compute. intros [H | [H | [H | [H | [H | []]]]]]; discriminate H.
  - vm_compute. tauto.
Defined.

(** ** Linking and unlinking *)

Lemma dict_get_set_same {V : Type} (k : string) (v : V) (d : dict V) :
  dict_get k (dict_set k v d) = Some v.
Proof.
  induction d as [| [k' v'] d IH]; simpl.
  - rewrite String.eqb_refl. reflexivity.
  - destruct (String.eqb k k') eqn:Hk; simpl; rewrite Hk; [reflexivity | exact IH].
Qed.

Lemma dict_get_set_other {V : Type} (k k0 : string) (v : V) (d : dict V) :
  k0 <> k -> dict_get k0 (dict_set k v d) = dict_get k0 d.
Proof.
  intros Hneq. induction d as [| [k' v'] d IH]; simpl.
  - apply String.eqb_neq in Hneq. rewrite Hneq. reflexivity.
  - destruct (String.eqb_spec k k') as [<- | Hk]; simpl.
    + apply String.eqb_neq in Hneq. rewrite Hneq. reflexivity.
    + rewrite IH. reflexivity.
Qed.

Lemma dict_get_remove_same {V : Type} (k : string) (d : dict V) :
  dict_get k (dict_remove k d) = None.
Proof.
  induction d as [| [k' v'] d IH]; simpl; [reflexivity |].
  destruct (String.eqb k k') eqn:Hk; simpl; [exact IH |].
  rewrite Hk. exact IH.
Qed.

Lemma dict_get_remove_other {V : Type} (k k0 : string) (d : dict V) :
  k0 <> k -> dict_get k0 (dict_remove k d) = dict_get k0 d.
Proof.
  intros Hneq. induction d as [| [k' v'] d IH]; simpl; [reflexivity |].
  destruct (String.eqb_spec k k') as [<- | Hk]; simpl.
  - apply String.eqb_neq in Hneq. rewrite Hneq. exact IH.
  - rewrite IH. reflexivity.
Qed.

Lemma dict_set_keys {V : Type} (k : string) (v : V) (d : dict V) :
  map fst (dict_set k v d)
  = match dict_get k d with
    | Some _ => map fst d
    | None => (map fst d ++ [k])%list
    end.
Proof.
  induction d as [| [k' v'] d IH]; simpl; [reflexivity |].
  destruct (String.eqb k k'); simpl; [reflexivity |].
  rewrite IH. destruct (dict_get k d); reflexivity.
Qed.

Lemma given_nonempty (name : string) : name <> "" -> given (Some name) = Some name.
Proof. destruct name; [contradiction | reflexivity]. Qed.

(** X12. A link is found again: after [link_user] with a user name, the
    command without argument of the same author logs the lookup and runs
    [get_stats] for that name, whatever was linked before; a name given to
    the command is used as it is and the dict is not consulted. *)
Theorem link_then_stats
    (E : env) (now : clock) (self : HacktoberStats) (file : option file_content)
    (ctx : Context) (name : string) (Hname : name <> "") :
  hacktoberstats_group E (fst (snd (link_user now self file ctx (Some name)))) ctx None
  = (emit (logging_info ("Getting stats for " ++ str_of_int (author_id ctx)
                         ++ " linked GitHub account '" ++ name ++ "'")) ;;;
     get_stats E name)
  /\ forall other : string,
       other <> "" ->
       hacktoberstats_group E (fst (snd (link_user now self file ctx (Some name)))) ctx
                            (Some other)
       = get_stats E other.
Proof.
  split.
  - unfold link_user, hacktoberstats_group, _author_mention_from_context.
    rewrite (given_nonempty name Hname). cbn [save_linked_users fst snd given].
    unfold with_accounts. cbn [linked_accounts].
    rewrite dict_get_set_same. reflexivity.
  - intros other Hother. unfold hacktoberstats_group.
    rewrite (given_nonempty other Hother). reflexivity.
Qed.

Lemma link_then_stats_witness :
  hacktoberstats_group
    (Sample.network Sample.no_results Sample.not_found)
    (fst (snd (link_user
                 {| clock_datetime := oct3 (Sample.network JNull JNull); microsecond := 0 |}
                 {| link_json := "github_links.json"; linked_accounts := [] |}
                 None
                 {| author_id := 42; author_mention := "<@42>"; prefix := "." |}
                 (Some "octocat"))))
    {| author_id := 42; author_mention := "<@42>"; prefix := "." |}
    None
  = (emit (logging_info "Getting stats for 42 linked GitHub account 'octocat'") ;;;
     get_stats (Sample.network Sample.no_results Sample.not_found) "octocat").
Proof.
  refine (proj1 (link_then_stats
                   (Sample.network Sample.no_results Sample.not_found)
                   {| clock_datetime := oct3 (Sample.network JNull JNull); microsecond := 0 |}
                   {| link_json := "github_links.json"; linked_accounts := [] |}
                   None
                   {| author_id := 42; author_mention := "<@42>"; prefix := "." |}
                   "octocat" _)).
  discriminate.
Defined.

(** X13. A link that is removed is gone: after [unlink_user] the command
    without argument of the same author posts the hint that no account is
    linked and does nothing else, so it makes no request; and the reply of
    [unlink_user] says "unlinked" exactly when there was a link. *)
Theorem unlink_then_not_linked
    (E : env) (self : HacktoberStats) (file : option file_content) (ctx : Context) :
  hacktoberstats_group E (fst (snd (unlink_user self file ctx))) ctx None
  = ([Send (not_linked_message ctx) None], Ok tt)
  /\ sent (fst (unlink_user self file ctx))
     = [(match dict_get (str_of_int (author_id ctx)) (linked_accounts self) with
         | Some _ => author_mention ctx ++ ", your GitHub profile has been unlinked"
         | None => author_mention ctx
                   ++ ", you do not currently have a linked GitHub account"
         end, None)].
Proof.
  unfold unlink_user, hacktoberstats_group, _author_mention_from_context.
  cbn [save_linked_users fst snd given]. unfold with_accounts. cbn [linked_accounts].
  rewrite dict_get_remove_same. split; [reflexivity |].
  destruct (dict_get (str_of_int (author_id ctx)) (linked_accounts self)); reflexivity.
Qed.

(** X14. The commands of one author leave the accounts of the others as
    they are: after [link_user] or [unlink_user] the entry of every other ID
    is the one it was. *)
Theorem other_accounts_untouched
    (now : clock) (self : HacktoberStats) (file : option file_content)
    (ctx : Context) (github_username : option string) (other : string)
    (Hother : other <> str_of_int (author_id ctx)) :
  dict_get other (linked_accounts (fst (snd (link_user now self file ctx github_username))))
  = dict_get other (linked_accounts self)
  /\ dict_get other (linked_accounts (fst (snd (unlink_user self file ctx))))
     = dict_get other (linked_accounts self).
Proof.
  unfold link_user, unlink_user, _author_mention_from_context. split.
  - destruct (given github_username); cbn [save_linked_users fst snd]; [| reflexivity].
    unfold with_accounts. cbn [linked_accounts].
    apply dict_get_set_other, Hother.
  - cbn [save_linked_users fst snd]. unfold with_accounts. cbn [linked_accounts].
    apply dict_get_remove_other, Hother.
Qed.

Lemma other_accounts_untouched_witness :
  dict_get "7"
    (linked_accounts
       (fst (snd (unlink_user
                    {| link_json := "github_links.json";
                       linked_accounts :=
                         [("7", {| username := "hubot"; date_added := Text "2020-10-01 08:00:00" |});
                          ("42", {| username := "octocat"; date_added := Text "2020-10-01 09:00:00" |})] |}
                    None
                    {| author_id := 42; author_mention := "<@42>"; prefix := "." |}))))
  = Some {| username := "hubot"; date_added := Text "2020-10-01 08:00:00" |}.
Proof.
  refine (proj2 (other_accounts_untouched
                   {| clock_datetime := oct3 (Sample.network JNull JNull); microsecond := 0 |}
                   {| link_json := "github_links.json";
                      linked_accounts :=
                        [("7", {| username := "hubot"; date_added := Text "2020-10-01 08:00:00" |});
                         ("42", {| username := "octocat"; date_added := Text "2020-10-01 09:00:00" |})] |}
                   None
                   {| author_id := 42; author_mention := "<@42>"; prefix := "." |}
                   None "7" _)).
  vm_compute. discriminate.
Defined.

(** X15. Linking again does not add an entry: when the author has a link,
    [link_user] with a user name keeps the IDs of the dict and their order
    and answers "updated"; when the author has none, the ID goes to the end
    and the answer is "added". *)
Theorem link_user_keys
    (now : clock) (self : HacktoberStats) (file : option file_content)
    (ctx : Context) (name : string) (Hname : name <> "") :
  match dict_get (str_of_int (author_id ctx)) (linked_accounts self) with
  | Some _ =>
      map fst (linked_accounts (fst (snd (link_user now self file ctx (Some name)))))
      = map fst (linked_accounts self)
      /\ sent (fst (link_user now self file ctx (Some name)))
         = [(author_mention ctx ++ ", your GitHub username has been updated to: '"
             ++ name ++ "'", None)]
  | None =>
      map fst (linked_accounts (fst (snd (link_user now self file ctx (Some name)))))
      = (map fst (linked_accounts self) ++ [str_of_int (author_id ctx)])%list
      /\ sent (fst (link_user now self file ctx (Some name)))
         = [(author_mention ctx ++ ", your GitHub username has been added", None)]
  end.
Proof.
  unfold link_user, _author_mention_from_context.
  rewrite (given_nonempty name Hname). cbn [save_linked_users fst snd].
  unfold with_accounts. cbn [linked_accounts]. rewrite dict_set_keys.
  destruct (dict_get (str_of_int (author_id ctx)) (linked_accounts self));
    split; reflexivity.
Qed.

Lemma link_user_keys_witness :
  map fst (linked_accounts
             (fst (snd (link_user
                          {| clock_datetime := oct3 (Sample.network JNull JNull);
                             microsecond := 0 |}
                          {| link_json := "github_links.json";
                             linked_accounts :=
                               [("42", {| username := "octocat";
                                          date_added := Text "2020-10-01 09:00:00" |});
                                ("7", {| username := "hubot";
                                         date_added := Text "2020-10-01 08:00:00" |})] |}
                          None
                          {| author_id := 42; author_mention := "<@42>"; prefix := "." |}
                          (Some "monalisa")))))
  = ["42"; "7"].
Proof.
  refine (proj1 (link_user_keys
                   {| clock_datetime := oct3 (Sample.network JNull JNull); microsecond := 0 |}
                   {| link_json := "github_links.json";
                      linked_accounts :=
                        [("42", {| username := "octocat";
                                   date_added := Text "2020-10-01 09:00:00" |});
                         ("7", {| username := "hubot";
                                  date_added := Text "2020-10-01 08:00:00" |})] |}
                   None
                   {| author_id := 42; author_mention := "<@42>"; prefix := "." |}
                   "monalisa" _)).
  discriminate.
Defined.

(** ** The file of the links *)

Lemma dict_get_items_from {V : Type} (k : string) (d : dict V) :
  forall seen,
    dict_get k (dict_items_from seen d)
    = if existsb (String.eqb k) seen then None else dict_get k d.
Proof.
  induction d as [| [k' v] d IH]; intros seen; simpl.
  - destruct (existsb (String.eqb k) seen); reflexivity.
  - destruct (existsb (String.eqb k') seen) eqn:Hseen.
    + rewrite IH. destruct (existsb (String.eqb k) seen) eqn:Hk; [reflexivity |].
      destruct (String.eqb_spec k k') as [-> | _]; [congruence | reflexivity].
    + simpl. rewrite IH. simpl.
      destruct (String.eqb_spec k k') as [-> | _]; simpl.
      * rewrite Hseen. reflexivity.
      * reflexivity.
Qed.

Lemma dict_items_from_keys {V : Type} (d : dict V) :
  forall seen,
    NoDup (map fst (dict_items_from seen d))
    /\ forall k, In k (map fst (dict_items_from seen d)) -> ~ In k seen.
Proof.
  induction d as [| [k' v] d IH]; intros seen; simpl.
  - split; [constructor | tauto].
  - destruct (existsb (String.eqb k') seen) eqn:Hseen; [apply IH |].
    destruct (IH (k' :: seen)) as [Hnd Hout]. simpl. split.
    + constructor; [| exact Hnd]. intros Hin. apply (Hout k' Hin). left. reflexivity.
    + intros k [<- | Hin].
      * intros Hk. assert (existsb (String.eqb k') seen = true); [| congruence].
        apply existsb_exists. exists k'. split; [exact Hk | apply String.eqb_refl].
      * intros Hk. apply (Hout k Hin). right. exact Hk.
Qed.

(** Lookup in a dict that [json.load] builds: the last member of the key. *)
Lemma dict_get_load (k : string) (content : file_content) :
  forall acc,
    NoDup (map fst content) ->
    dict_get k
      (fold_left
         (fun d p => dict_set (fst p)
                       {| username := fst (snd p); date_added := Text (snd (snd p)) |} d)
         content acc)
    = match dict_get k content with
      | Some v => Some {| username := fst v; date_added := Text (snd v) |}
      | None => dict_get k acc
      end.
Proof.
  induction content as [| [k' v] content IH]; intros acc Hnd; simpl; [reflexivity |].
  inversion Hnd as [| ? ? Hk' Hnd']; subst.
  rewrite (IH _ Hnd'). cbn [fst snd].
  destruct (String.eqb_spec k k') as [-> | Hneq].
  - destruct (dict_get k' content) as [v' |] eqn:Hget.
    + exfalso. apply Hk'. clear - Hget.
      induction content as [| [k v0] content IH]; simpl in *; [discriminate |].
      destruct (String.eqb_spec k' k) as [-> | _]; [left; reflexivity | right; auto].
    + apply dict_get_set_same.
  - destruct (dict_get k content); [reflexivity |].
    apply dict_get_set_other, Hneq.
Qed.

Lemma dict_get_map {V W : Type} (f : V -> W) (k : string) (d : dict V) :
  dict_get k (map (fun p => (fst p, f (snd p))) d) = option_map f (dict_get k d).
Proof.
  induction d as [| [k' v] d IH]; simpl; [reflexivity |].
  destruct (String.eqb k k'); [reflexivity | exact IH].
Qed.

Lemma dict_get_load_dump (k : string) (d : dict account) :
  option_map username (dict_get k (load (dump d))) = option_map username (dict_get k d).
Proof.
  unfold load, dump. rewrite dict_get_load.
  - rewrite (dict_get_map
               (fun a => (username a,
                          match date_added a with
                          | Now c => str_of_clock c
                          | Text s => s
                          end))).
    unfold dict_items. rewrite dict_get_items_from. simpl.
    destruct (dict_get k d); reflexivity.
  - rewrite map_map. simpl. exact (proj1 (dict_items_from_keys d [])).
Qed.

Lemma hacktoberstats_group_by_username (E : env) (self self' : HacktoberStats)
    (ctx : Context) (github_username : option string) :
  option_map username (dict_get (str_of_int (author_id ctx)) (linked_accounts self'))
  = option_map username (dict_get (str_of_int (author_id ctx)) (linked_accounts self)) ->
  hacktoberstats_group E self' ctx github_username
  = hacktoberstats_group E self ctx github_username.
Proof.
  intros H. unfold hacktoberstats_group, _author_mention_from_context.
  destruct (given github_username); [reflexivity |].
  destruct (dict_get (str_of_int (author_id ctx)) (linked_accounts self')) as [a' |];
    destruct (dict_get (str_of_int (author_id ctx)) (linked_accounts self)) as [a |];
    simpl in H; try discriminate; [| reflexivity].
  injection H as ->. reflexivity.
Qed.

Lemma reload_saved (self : HacktoberStats) :
  linked_accounts (reload self (snd (save_linked_users self)))
  = load (dump (linked_accounts self)).
Proof. reflexivity. Qed.

(** X16. Links survive a restart: after [link_user] with a user name and
    after [unlink_user], a cog that is loaded from the file that the command
    wrote answers the stats command as the cog in memory does, for every
    author and argument. *)
Theorem links_survive_restart
    (E : env) (now : clock) (self : HacktoberStats) (file : option file_content)
    (ctx ctx' : Context) (name : string) (github_username : option string)
    (Hname : name <> "") :
  hacktoberstats_group E
    (reload self (snd (snd (link_user now self file ctx (Some name))))) ctx' github_username
  = hacktoberstats_group E
      (fst (snd (link_user now self file ctx (Some name)))) ctx' github_username
  /\ hacktoberstats_group E
       (reload self (snd (snd (unlink_user self file ctx)))) ctx' github_username
     = hacktoberstats_group E (fst (snd (unlink_user self file ctx))) ctx' github_username.
Proof.
  split; apply hacktoberstats_group_by_username.
  - unfold link_user, _author_mention_from_context.
    rewrite (given_nonempty name Hname). cbn [save_linked_users fst snd].
    unfold reload, init, load_linked_users, with_accounts. cbn [fst snd linked_accounts].
    apply dict_get_load_dump.
  - unfold unlink_user, _author_mention_from_context. cbn [save_linked_users fst snd].
    unfold reload, init, load_linked_users, with_accounts. cbn [fst snd linked_accounts].
    apply dict_get_load_dump.
Qed.

Lemma links_survive_restart_witness :
  hacktoberstats_group
    (Sample.network Sample.no_results Sample.not_found)
    (reload {| link_json := "github_links.json"; linked_accounts := [] |}
            (snd (snd (link_user
                         {| clock_datetime := oct3 (Sample.network JNull JNull);
                            microsecond := 250 |}
                         {| link_json := "github_links.json"; linked_accounts := [] |}
                         None
                         {| author_id := 42; author_mention := "<@42>"; prefix := "." |}
                         (Some "octocat")))))
    {| author_id := 42; author_mention := "<@42>"; prefix := "." |} None
  = hacktoberstats_group
      (Sample.network Sample.no_results Sample.not_found)
      (fst (snd (link_user
                   {| clock_datetime := oct3 (Sample.network JNull JNull);
                      microsecond := 250 |}
                   {| link_json := "github_links.json"; linked_accounts := [] |}
                   None
                   {| author_id := 42; author_mention := "<@42>"; prefix := "." |}
                   (Some "octocat"))))
      {| author_id := 42; author_mention := "<@42>"; prefix := "." |} None.
Proof.
  refine (proj1 (links_survive_restart
                   (Sample.network Sample.no_results Sample.not_found)
                   {| clock_datetime := oct3 (Sample.network JNull JNull); microsecond := 250 |}
                   {| link_json := "github_links.json"; linked_accounts := [] |}
                   None
                   {| author_id := 42; author_mention := "<@42>"; prefix := "." |}
                   {| author_id := 42; author_mention := "<@42>"; prefix := "." |}
                   "octocat" None _)).
  discriminate.
Defined.

(** ** All or nothing *)

Lemma loop_body_raise_any (E : env) (jsonresp item : json) (e : exn) :
  outcome (loop_body E jsonresp item []) = Raise e ->
  forall outlist, outcome (loop_body E jsonresp item outlist) = Raise e.
Proof.
  destruct (loop_body_appends E jsonresp item) as (t & d & Hbody).
  rewrite (Hbody []). intros H outlist. rewrite (Hbody outlist).
  destruct d as [[x |] | e']; simpl in *; try discriminate. exact H.
Qed.

Lemma loop_body_ok_any (E : env) (jsonresp item : json) (l : list itemdict) :
  outcome (loop_body E jsonresp item []) = Ok l ->
  forall outlist, exists outlist', outcome (loop_body E jsonresp item outlist) = Ok outlist'.
Proof.
  destruct (loop_body_appends E jsonresp item) as (t & d & Hbody).
  rewrite (Hbody []). intros H outlist. rewrite (Hbody outlist).
  destruct d as [[x |] | e']; simpl in *; try discriminate; eexists; reflexivity.
Qed.

Lemma for_items_first_raise (E : env) (jsonresp : json) (pre : list json)
    (item : json) (rest : list json) (e : exn) :
  Forall (fun i => exists l, outcome (loop_body E jsonresp i []) = Ok l) pre ->
  outcome (loop_body E jsonresp item []) = Raise e ->
  forall outlist,
    outcome (for_items E jsonresp (pre ++ item :: rest) outlist) = Raise e.
Proof.
  intros Hpre Hitem. induction Hpre as [| i pre [l Hi] _ IH]; intros outlist; simpl.
  - apply outcome_bind_raise, loop_body_raise_any, Hitem.
  - rewrite outcome_bind.
    destruct (loop_body_ok_any E jsonresp i l Hi outlist) as [outlist' Hrun].
    rewrite Hrun. simpl. apply IH.
Qed.

(** X18. One bad item spoils the query: when the iteration raises on an
    item of the search response and on none before it, [get_october_prs]
    raises that exception, whatever the items before and after it are; the
    dicts gathered so far are not returned. *)
Theorem first_failing_item_aborts
    (E : env) (github_username : string) (kv : list (string * json))
    (total_count : json) (pre : list json) (item : json) (rest : list json) (e : exn)
    (Hresp : search_response E github_username = JObj kv)
    (Hmessage : has_key "message" kv = false)
    (Hcount : assoc "total_count" kv = Some total_count)
    (Hnonzero : py_eq_zero total_count = false)
    (Hitems : assoc "items" kv = Some (JArr (pre ++ item :: rest)))
    (Hpre : Forall (fun i => exists l, outcome (loop_body E (JObj kv) i []) = Ok l) pre)
    (Hitem : outcome (loop_body E (JObj kv) item []) = Raise e) :
  outcome (get_october_prs E github_username) = Raise e.
Proof.
  rewrite get_october_prs_outcome. cbv zeta. rewrite Hresp.
  cbn [py_in_keys rbind]. rewrite Hmessage. cbn [py_getitem].
  rewrite Hcount. cbn [rbind]. rewrite Hnonzero, Hitems. cbn [rbind py_iter].
  rewrite (for_items_first_raise E (JObj kv) pre item rest e Hpre Hitem []).
  reflexivity.
Qed.

Lemma first_failing_item_aborts_witness :
  outcome (get_october_prs
             (Sample.network
                (Sample.search [Sample.early;
                                JObj [("created_at", JStr "2020-10-01T10:00:00Z")];
                                Sample.early])
                (Sample.topics ["hacktoberfest"]))
             "octocat")
  = Raise (KeyError (JStr "repository_url")).
Proof.
  refine (first_failing_item_aborts
            (Sample.network
               (Sample.search [Sample.early;
                               JObj [("created_at", JStr "2020-10-01T10:00:00Z")];
                               Sample.early])
               (Sample.topics ["hacktoberfest"]))
            "octocat"
            [("total_count", JNum 3); ("incomplete_results", JBool false);
             ("items", JArr [Sample.early;
                             JObj [("created_at", JStr "2020-10-01T10:00:00Z")];
                             Sample.early])]
            (JNum 3) [Sample.early]
            (JObj [("created_at", JStr "2020-10-01T10:00:00Z")])
            [Sample.early] (KeyError (JStr "repository_url"))
            _ _ _ _ _ _ _).
  - vm_compute. reflexivity.
  - vm_compute. reflexivity.
  - vm_compute. reflexivity.
  - vm_compute. reflexivity.
  - vm_compute. reflexivity.
  - constructor; [| constructor]. eexists. vm_compute. reflexivity.
  - vm_compute. reflexivity.
Defined.

(** X19. After the cut-off a repository with the topic is enough: when the
    topics response lists "hacktoberfest", the iteration makes the one
    request for the topics, appends the item and does not look at the labels,
    so the search response may be anything. *)
Theorem tagged_after_cutoff_admitted
    (E : env) (jsonresp item : json) (outlist : list itemdict)
    (in_url shortname : string) (created_str : json) (created : datetime)
    (kv : list (string * json)) (names : list json)
    (Hurl : py_getitem item (JStr "repository_url") = Ok (JStr in_url))
    (Hshort : _get_shortname in_url = Ok shortname)
    (Hcreated : py_getitem item (JStr "created_at") = Ok created_str)
    (Hparse : strptime created_str = Ok created)
    (Hafter : datetime_ltb created (oct3 E) = false)
    (Hget : http_get E (topics_query_url shortname) GITHUB_TOPICS_ACCEPT_HEADER = JObj kv)
    (Hnames : assoc "names" kv = Some (JArr names))
    (Htag : In (JStr "hacktoberfest") names) :
  outcome (loop_body E jsonresp item outlist)
  = Ok (outlist ++ [new_itemdict shortname created])%list
  /\ requests (trace (loop_body E jsonresp item outlist))
     = [(topics_query_url shortname, GITHUB_TOPICS_ACCEPT_HEADER)]
  /\ qualify E jsonresp item = true.
Proof.
  assert (Hex : existsb (fun v => py_eq_str v "hacktoberfest") names = true).
  { apply existsb_exists. exists (JStr "hacktoberfest"). split; [exact Htag | reflexivity]. }
  assert (Hrun : forall out,
    loop_body E jsonresp item out
    = ([HttpGet (topics_query_url shortname) GITHUB_TOPICS_ACCEPT_HEADER],
       Ok (out ++ [new_itemdict shortname created])%list)).
  { intros out.
    rewrite (loop_body_post_cutoff E jsonresp item in_url shortname created_str created
               Hurl Hshort Hcreated Hparse Hafter out).
    unfold session_get, emit, ret, bind, lift, logging. rewrite Hget. simpl.
    unfold has_key. rewrite Hnames. simpl. rewrite Hex. reflexivity. }
  rewrite Hrun. split; [reflexivity |]. split; [reflexivity |].
  unfold qualify. rewrite Hrun. reflexivity.
Qed.

Lemma tagged_after_cutoff_admitted_witness :
  outcome (loop_body (Sample.network JNull (Sample.topics ["python"; "hacktoberfest"]))
                     JNull Sample.late [])
  = Ok [new_itemdict "octocat/hello-world"
          {| year := 2020; month := 10; day := 3; hour := 0; minute := 0; second := 0 |}].
Proof.
  refine (proj1 (tagged_after_cutoff_admitted
                   (Sample.network JNull (Sample.topics ["python"; "hacktoberfest"]))
                   JNull Sample.late []
                   "https://api.github.com/repos/octocat/hello-world" "octocat/hello-world"
                   (JStr "2020-10-03T00:00:00Z")
                   {| year := 2020; month := 10; day := 3; hour := 0; minute := 0; second := 0 |}
                   [("names", JArr [JStr "python"; JStr "hacktoberfest"])]
                   [JStr "python"; JStr "hacktoberfest"]
                   _ _ _ _ _ _ _ _));
    try (vm_compute; reflexivity).
  right. left. reflexivity.
Defined.

(** ** The character classes on the code points below 256 *)

(** The code points that [\w] matches. *)
Example is_word_codes :
  filter (fun n => is_word (ascii_of_nat n)) (seq 0 256)
  = [
    48%nat; 49%nat; 50%nat; 51%nat; 52%nat; 53%nat; 54%nat; 55%nat; 56%nat;
    57%nat; 65%nat; 66%nat; 67%nat; 68%nat; 69%nat; 70%nat; 71%nat; 72%nat;
    73%nat; 74%nat; 75%nat; 76%nat; 77%nat; 78%nat; 79%nat; 80%nat; 81%nat;
    82%nat; 83%nat; 84%nat; 85%nat; 86%nat; 87%nat; 88%nat; 89%nat; 90%nat;
    95%nat; 97%nat; 98%nat; 99%nat; 100%nat; 101%nat; 102%nat; 103%nat;
    104%nat; 105%nat; 106%nat; 107%nat; 108%nat; 109%nat; 110%nat; 111%nat;
    112%nat; 113%nat; 114%nat; 115%nat; 116%nat; 117%nat; 118%nat; 119%nat;
    120%nat; 121%nat; 122%nat; 170%nat; 178%nat; 179%nat; 181%nat; 185%nat;
    186%nat; 188%nat; 189%nat; 190%nat; 192%nat; 193%nat; 194%nat; 195%nat;
    196%nat; 197%nat; 198%nat; 199%nat; 200%nat; 201%nat; 202%nat; 203%nat;
    204%nat; 205%nat; 206%nat; 207%nat; 208%nat; 209%nat; 210%nat; 211%nat;
    212%nat; 213%nat; 214%nat; 216%nat; 217%nat; 218%nat; 219%nat; 220%nat;
    221%nat; 222%nat; 223%nat; 224%nat; 225%nat; 226%nat; 227%nat; 228%nat;
    229%nat; 230%nat; 231%nat; 232%nat; 233%nat; 234%nat; 235%nat; 236%nat;
    237%nat; 238%nat; 239%nat; 240%nat; 241%nat; 242%nat; 243%nat; 244%nat;
    245%nat; 246%nat; 248%nat; 249%nat; 250%nat; 251%nat; 252%nat; 253%nat;
    254%nat; 255%nat ].
Proof. vm_compute. reflexivity. Qed.

(** The code points of the class [[/\-\_\.\w]]. *)
Example shortname_char_codes :
  filter (fun n => shortname_char (ascii_of_nat n)) (seq 0 256)
  = [
    45%nat; 46%nat; 47%nat; 48%nat; 49%nat; 50%nat; 51%nat; 52%nat; 53%nat;
    54%nat; 55%nat; 56%nat; 57%nat; 65%nat; 66%nat; 67%nat; 68%nat; 69%nat;
    70%nat; 71%nat; 72%nat; 73%nat; 74%nat; 75%nat; 76%nat; 77%nat; 78%nat;
    79%nat; 80%nat; 81%nat; 82%nat; 83%nat; 84%nat; 85%nat; 86%nat; 87%nat;
    88%nat; 89%nat; 90%nat; 95%nat; 97%nat; 98%nat; 99%nat; 100%nat;
    101%nat; 102%nat; 103%nat; 104%nat; 105%nat; 106%nat; 107%nat; 108%nat;
    109%nat; 110%nat; 111%nat; 112%nat; 113%nat; 114%nat; 115%nat; 116%nat;
    117%nat; 118%nat; 119%nat; 120%nat; 121%nat; 122%nat; 170%nat; 178%nat;
    179%nat; 181%nat; 185%nat; 186%nat; 188%nat; 189%nat; 190%nat; 192%nat;
    193%nat; 194%nat; 195%nat; 196%nat; 197%nat; 198%nat; 199%nat; 200%nat;
    201%nat; 202%nat; 203%nat; 204%nat; 205%nat; 206%nat; 207%nat; 208%nat;
    209%nat; 210%nat; 211%nat; 212%nat; 213%nat; 214%nat; 216%nat; 217%nat;
    218%nat; 219%nat; 220%nat; 221%nat; 222%nat; 223%nat; 224%nat; 225%nat;
    226%nat; 227%nat; 228%nat; 229%nat; 230%nat; 231%nat; 232%nat; 233%nat;
    234%nat; 235%nat; 236%nat; 237%nat; 238%nat; 239%nat; 240%nat; 241%nat;
    242%nat; 243%nat; 244%nat; 245%nat; 246%nat; 248%nat; 249%nat; 250%nat;
    251%nat; 252%nat; 253%nat; 254%nat; 255%nat ].
Proof. vm_compute. reflexivity. Qed.

(** A short name with a letter outside ASCII: the run goes on over it. *)
Example get_shortname_latin1 :
  _get_shortname ("https://api.github.com/repos/us" ++ String "233" "r/repo")
  = Ok ("us" ++ String "233" "r/repo")
  /\ _get_shortname ("https://api.github.com/repos/" ++ String "233" "")
     = Ok (String "233" "")
  /\ _get_shortname ("https://api.github.com/repos/us" ++ String "215" "r/repo")
     = Ok "us".
Proof. repeat split; vm_compute; reflexivity. Qed.

(** ** A file with a repeated key *)

(** Of a key that the object of the file has twice the last member stays,
    at the place of the first. *)
Example load_repeated_key :
  load [("7", ("hubot", "2020-10-01 08:00:00"));
        ("42", ("octocat", "2020-10-01 09:00:00"));
        ("7", ("monalisa", "2020-10-02 10:00:00"))]
  = [("7", {| username := "monalisa"; date_added := Text "2020-10-02 10:00:00" |});
     ("42", {| username := "octocat"; date_added := Text "2020-10-01 09:00:00" |})].
Proof. reflexivity. Qed.
